(** * AudioInput: the media capture and upload coordinator

    A shallow embedding of
    [frontend/lib/src/components/widgets/AudioInput/AudioInput.tsx].

    The React component is modelled as a record holding the value of each
    [useState] hook, next to a record for the part of the browser and of the
    collaborators the component talks to (the object-URL store, the
    permission promise, the upload sink, the widget manager).  Every callback
    of the component is a function on that pair; the promises and backend
    events that call them back are the events of a step function. *)

From stdpp Require Import base option list strings gmap pretty.
From Stdlib Require Import ZArith.

Open Scope string_scope.

(** ** Values handed around by the browser and the collaborators *)

Record MediaDeviceInfo := {
  deviceId : string;
  label : string
}.

Record Blob := {
  blob_bytes : list Byte.byte;
  blob_type : string
}.

(** [new File([blob], name, { type })] *)
Record File := {
  file_parts : list Blob;
  file_name : string;
  file_type : string
}.

Record FileURLs := {
  fileId : string;
  uploadUrl : string;
  deleteUrl : option string
}.

(** One entry of [successfulUploads]. *)
Record UploadedFile := {
  uploaded : File;
  fileUrl : FileURLs
}.

Record UploadResult := {
  successfulUploads : list UploadedFile
}.

Record EmotionTheme := {
  colors_primary : string;
  colors_bodyText : string
}.

(** ** The capture and render backend

    [WaveSurfer] and its [RecordPlugin] come from wavesurfer.js; only what
    the component observes of them is kept.  A start request stays pending
    until the plugin has the microphone ([rp_request]); a stopped recorder
    owes one [record-end] event ([rp_stopping]). *)

Record WaveSurfer := {
  ws_waveColor : string;
  ws_loaded : bool;
  ws_playing : bool
}.

Record RecordPlugin := {
  rp_recording : bool;
  rp_request : option string;
  rp_stopping : bool
}.

Definition ws_setWaveColor (c : string) (ws : WaveSurfer) : WaveSurfer :=
  {| ws_waveColor := c; ws_loaded := ws_loaded ws; ws_playing := ws_playing ws |}.

(** [wavesurfer.empty()] *)
Definition ws_empty (ws : WaveSurfer) : WaveSurfer :=
  {| ws_waveColor := ws_waveColor ws; ws_loaded := false; ws_playing := false |}.

(** [wavesurfer.playPause()] *)
Definition ws_playPause (ws : WaveSurfer) : WaveSurfer :=
  {| ws_waveColor := ws_waveColor ws; ws_loaded := ws_loaded ws;
     ws_playing := negb (ws_playing ws) |}.

Definition ws_paused (ws : WaveSurfer) : WaveSurfer :=
  {| ws_waveColor := ws_waveColor ws; ws_loaded := ws_loaded ws;
     ws_playing := false |}.

(** The plugin renders the recorded audio ([renderRecordedAudio: true]). *)
Definition ws_rendered (ws : WaveSurfer) : WaveSurfer :=
  {| ws_waveColor := ws_waveColor ws; ws_loaded := true;
     ws_playing := ws_playing ws |}.

(** [recordPlugin.startRecording({ deviceId })] *)
Definition rp_startRecording (dev : string) (rp : RecordPlugin) : RecordPlugin :=
  {| rp_recording := rp_recording rp; rp_request := Some dev;
     rp_stopping := rp_stopping rp |}.

(** The promise of [startRecording] resolves: the recorder runs. *)
Definition rp_started (rp : RecordPlugin) : RecordPlugin :=
  {| rp_recording := true; rp_request := None; rp_stopping := rp_stopping rp |}.

(** [recordPlugin.stopRecording()] *)
Definition rp_stopRecording (rp : RecordPlugin) : RecordPlugin :=
  if rp_recording rp
  then {| rp_recording := false; rp_request := rp_request rp; rp_stopping := true |}
  else rp.

(** The plugin has emitted [record-end]. *)
Definition rp_ended (rp : RecordPlugin) : RecordPlugin :=
  {| rp_recording := rp_recording rp; rp_request := rp_request rp;
     rp_stopping := false |}.

(** ** JavaScript values *)

(** Truthiness of a [string | null]: [null] and the empty string are falsy. *)
Definition truthy (v : option string) : bool :=
  match v with
  | Some s => negb (String.eqb s "")
  | None => false
  end.

(** [isNullOrUndefined] and [notNullOrUndefined] of [util/utils]. *)
Definition isNullOrUndefined {A} (v : option A) : bool :=
  match v with Some _ => false | None => true end.

Definition notNullOrUndefined {A} (v : option A) : bool :=
  negb (isNullOrUndefined v).

(** Modelled from the spec: the constant [STARTING_TIME_STRING] of
    [./constants] is not part of the sources; the spec gives the initial
    time code as "00:00". *)
Definition STARTING_TIME_STRING : string := "00:00".

(** ** The state of the component: one field per [useState] hook *)

Record AudioInputState := {
  wavesurfer : option WaveSurfer;
  deleteFileUrl : option string;
  recordPlugin : option RecordPlugin;
  availableAudioDevices : list MediaDeviceInfo;
  activeAudioDeviceId : option string;
  recordingUrl : option string;
  rerender : nat;
  progressTime : string;
  recordingTime : string;
  shouldUpdatePlaybackTime : bool;
  hasNoMicPermissions : bool
}.

(** ** What the component acts on outside of its own state *)

(** The promise chain of the permission effect:
    [getUserMedia(...).then(...getAvailableAudioDevices().then(...)).catch(...)]. *)
Inductive MicAccess := Pending | Granted | Enumerated | Denied.

Record Env := {
  objectUrls : gset string;       (* URLs created and not yet revoked *)
  urlCounter : nat;               (* names the next object URL *)
  micAccess : MicAccess;
  waveSurferRef : bool;           (* [waveSurferRef.current !== null] *)
  uploadsInFlight : list File;    (* [uploadFiles] promises not yet settled *)
  deletedFiles : list string;     (* [uploadClient.deleteFile] requests *)
  fileUploaderResets : nat        (* [widgetMgr.setFileUploaderStateValue] calls *)
}.

Record Sys := {
  ui : AudioInputState;
  env : Env
}.

#[global] Instance MicAccess_eq_dec : EqDecision MicAccess.
Proof. solve_decision. Defined.

(** ** State setters *)

Definition setWavesurfer (v : option WaveSurfer) (s : AudioInputState) :=
  {| wavesurfer := v; deleteFileUrl := deleteFileUrl s;
     recordPlugin := recordPlugin s;
     availableAudioDevices := availableAudioDevices s;
     activeAudioDeviceId := activeAudioDeviceId s;
     recordingUrl := recordingUrl s; rerender := rerender s;
     progressTime := progressTime s; recordingTime := recordingTime s;
     shouldUpdatePlaybackTime := shouldUpdatePlaybackTime s;
     hasNoMicPermissions := hasNoMicPermissions s |}.

Definition setDeleteFileUrl (v : option string) (s : AudioInputState) :=
  {| wavesurfer := wavesurfer s; deleteFileUrl := v;
     recordPlugin := recordPlugin s;
     availableAudioDevices := availableAudioDevices s;
     activeAudioDeviceId := activeAudioDeviceId s;
     recordingUrl := recordingUrl s; rerender := rerender s;
     progressTime := progressTime s; recordingTime := recordingTime s;
     shouldUpdatePlaybackTime := shouldUpdatePlaybackTime s;
     hasNoMicPermissions := hasNoMicPermissions s |}.

Definition setRecordPlugin (v : option RecordPlugin) (s : AudioInputState) :=
  {| wavesurfer := wavesurfer s; deleteFileUrl := deleteFileUrl s;
     recordPlugin := v;
     availableAudioDevices := availableAudioDevices s;
     activeAudioDeviceId := activeAudioDeviceId s;
     recordingUrl := recordingUrl s; rerender := rerender s;
     progressTime := progressTime s; recordingTime := recordingTime s;
     shouldUpdatePlaybackTime := shouldUpdatePlaybackTime s;
     hasNoMicPermissions := hasNoMicPermissions s |}.

Definition setAvailableAudioDevices (v : list MediaDeviceInfo) (s : AudioInputState) :=
  {| wavesurfer := wavesurfer s; deleteFileUrl := deleteFileUrl s;
     recordPlugin := recordPlugin s;
     availableAudioDevices := v;
     activeAudioDeviceId := activeAudioDeviceId s;
     recordingUrl := recordingUrl s; rerender := rerender s;
     progressTime := progressTime s; recordingTime := recordingTime s;
     shouldUpdatePlaybackTime := shouldUpdatePlaybackTime s;
     hasNoMicPermissions := hasNoMicPermissions s |}.

Definition setActiveAudioDeviceId (v : option string) (s : AudioInputState) :=
  {| wavesurfer := wavesurfer s; deleteFileUrl := deleteFileUrl s;
     recordPlugin := recordPlugin s;
     availableAudioDevices := availableAudioDevices s;
     activeAudioDeviceId := v;
     recordingUrl := recordingUrl s; rerender := rerender s;
     progressTime := progressTime s; recordingTime := recordingTime s;
     shouldUpdatePlaybackTime := shouldUpdatePlaybackTime s;
     hasNoMicPermissions := hasNoMicPermissions s |}.

Definition setRecordingUrl (v : option string) (s : AudioInputState) :=
  {| wavesurfer := wavesurfer s; deleteFileUrl := deleteFileUrl s;
     recordPlugin := recordPlugin s;
     availableAudioDevices := availableAudioDevices s;
     activeAudioDeviceId := activeAudioDeviceId s;
     recordingUrl := v; rerender := rerender s;
     progressTime := progressTime s; recordingTime := recordingTime s;
     shouldUpdatePlaybackTime := shouldUpdatePlaybackTime s;
     hasNoMicPermissions := hasNoMicPermissions s |}.

(** [setRerender(prev => prev + 1)] *)
Definition forceRerender (s : AudioInputState) :=
  {| wavesurfer := wavesurfer s; deleteFileUrl := deleteFileUrl s;
     recordPlugin := recordPlugin s;
     availableAudioDevices := availableAudioDevices s;
     activeAudioDeviceId := activeAudioDeviceId s;
     recordingUrl := recordingUrl s; rerender := rerender s + 1;
     progressTime := progressTime s; recordingTime := recordingTime s;
     shouldUpdatePlaybackTime := shouldUpdatePlaybackTime s;
     hasNoMicPermissions := hasNoMicPermissions s |}.

Definition setProgressTime (v : string) (s : AudioInputState) :=
  {| wavesurfer := wavesurfer s; deleteFileUrl := deleteFileUrl s;
     recordPlugin := recordPlugin s;
     availableAudioDevices := availableAudioDevices s;
     activeAudioDeviceId := activeAudioDeviceId s;
     recordingUrl := recordingUrl s; rerender := rerender s;
     progressTime := v; recordingTime := recordingTime s;
     shouldUpdatePlaybackTime := shouldUpdatePlaybackTime s;
     hasNoMicPermissions := hasNoMicPermissions s |}.

Definition setRecordingTime (v : string) (s : AudioInputState) :=
  {| wavesurfer := wavesurfer s; deleteFileUrl := deleteFileUrl s;
     recordPlugin := recordPlugin s;
     availableAudioDevices := availableAudioDevices s;
     activeAudioDeviceId := activeAudioDeviceId s;
     recordingUrl := recordingUrl s; rerender := rerender s;
     progressTime := progressTime s; recordingTime := v;
     shouldUpdatePlaybackTime := shouldUpdatePlaybackTime s;
     hasNoMicPermissions := hasNoMicPermissions s |}.

Definition setShouldUpdatePlaybackTime (v : bool) (s : AudioInputState) :=
  {| wavesurfer := wavesurfer s; deleteFileUrl := deleteFileUrl s;
     recordPlugin := recordPlugin s;
     availableAudioDevices := availableAudioDevices s;
     activeAudioDeviceId := activeAudioDeviceId s;
     recordingUrl := recordingUrl s; rerender := rerender s;
     progressTime := progressTime s; recordingTime := recordingTime s;
     shouldUpdatePlaybackTime := v;
     hasNoMicPermissions := hasNoMicPermissions s |}.

Definition setHasNoMicPermissions (v : bool) (s : AudioInputState) :=
  {| wavesurfer := wavesurfer s; deleteFileUrl := deleteFileUrl s;
     recordPlugin := recordPlugin s;
     availableAudioDevices := availableAudioDevices s;
     activeAudioDeviceId := activeAudioDeviceId s;
     recordingUrl := recordingUrl s; rerender := rerender s;
     progressTime := progressTime s; recordingTime := recordingTime s;
     shouldUpdatePlaybackTime := shouldUpdatePlaybackTime s;
     hasNoMicPermissions := v |}.

(** A callback is an action on the system.  [on_ui] lifts a state setter,
    [on_env] an effect on the environment, and [a >>> b] runs [a] then [b]. *)
Definition Action := Sys -> Sys.

Definition on_ui (f : AudioInputState -> AudioInputState) : Action :=
  fun w => {| ui := f (ui w); env := env w |}.

Definition on_env (f : Env -> Env) : Action :=
  fun w => {| ui := ui w; env := f (env w) |}.

Definition skip : Action := fun w => w.

Definition seq (a b : Action) : Action := fun w => b (a w).

Notation "a >>> b" := (seq a b) (at level 62, right associativity).

(** ** Effects on the environment *)

(** The name the browser gives the [n]-th object URL. *)
Definition blobUrl (n : nat) : string := "blob:" +:+ pretty n.

(** [URL.createObjectURL(blob)]: the URL that will be handed out, and the
    store once it has been. *)
Definition nextObjectURL (e : Env) : string := blobUrl (urlCounter e).

Definition createObjectURL (e : Env) : Env :=
  {| objectUrls := {[ nextObjectURL e ]} ∪ objectUrls e;
     urlCounter := S (urlCounter e);
     micAccess := micAccess e; waveSurferRef := waveSurferRef e;
     uploadsInFlight := uploadsInFlight e;
     deletedFiles := deletedFiles e;
     fileUploaderResets := fileUploaderResets e |}.

(** [URL.revokeObjectURL(url)] *)
Definition revokeObjectURL (url : string) (e : Env) : Env :=
  {| objectUrls := objectUrls e ∖ {[ url ]};
     urlCounter := urlCounter e;
     micAccess := micAccess e; waveSurferRef := waveSurferRef e;
     uploadsInFlight := uploadsInFlight e;
     deletedFiles := deletedFiles e;
     fileUploaderResets := fileUploaderResets e |}.

Definition setMicAccess (a : MicAccess) (e : Env) : Env :=
  {| objectUrls := objectUrls e; urlCounter := urlCounter e;
     micAccess := a; waveSurferRef := waveSurferRef e;
     uploadsInFlight := uploadsInFlight e;
     deletedFiles := deletedFiles e;
     fileUploaderResets := fileUploaderResets e |}.

(** [uploadFiles({ files: [file], ... })]: one more promise in flight. *)
Definition uploadFiles (file : File) (e : Env) : Env :=
  {| objectUrls := objectUrls e; urlCounter := urlCounter e;
     micAccess := micAccess e; waveSurferRef := waveSurferRef e;
     uploadsInFlight := uploadsInFlight e ++ [file];
     deletedFiles := deletedFiles e;
     fileUploaderResets := fileUploaderResets e |}.

(** The oldest upload promise settles. *)
Definition uploadSettled (e : Env) : Env :=
  {| objectUrls := objectUrls e; urlCounter := urlCounter e;
     micAccess := micAccess e; waveSurferRef := waveSurferRef e;
     uploadsInFlight := tail (uploadsInFlight e);
     deletedFiles := deletedFiles e;
     fileUploaderResets := fileUploaderResets e |}.

(** [uploadClient.deleteFile(url)] *)
Definition deleteFile (url : string) (e : Env) : Env :=
  {| objectUrls := objectUrls e; urlCounter := urlCounter e;
     micAccess := micAccess e; waveSurferRef := waveSurferRef e;
     uploadsInFlight := uploadsInFlight e;
     deletedFiles := deletedFiles e ++ [url];
     fileUploaderResets := fileUploaderResets e |}.

(** [widgetMgr.setFileUploaderStateValue(element, {}, { fromUi: true }, undefined)] *)
Definition setFileUploaderStateValue (e : Env) : Env :=
  {| objectUrls := objectUrls e; urlCounter := urlCounter e;
     micAccess := micAccess e; waveSurferRef := waveSurferRef e;
     uploadsInFlight := uploadsInFlight e;
     deletedFiles := deletedFiles e;
     fileUploaderResets := S (fileUploaderResets e) |}.

(** ** Exceptions of the JavaScript runtime

    Indexing an array out of range gives [undefined] (here [None]); reading a
    property of [undefined] throws. *)

Inductive JsResult (A : Type) : Type :=
| Ok (a : A)
| TypeError.

Arguments Ok {A} a.
Arguments TypeError {A}.

(** [upload.fileUrl] *)
Definition get_fileUrl (upload : option UploadedFile) : JsResult FileURLs :=
  match upload with
  | Some u => Ok (fileUrl u)
  | None => TypeError
  end.

(** ** The component *)

Section AudioInput.

(** The props of the component that its callbacks read, and the formatter
    of [./formatTime], which is not part of the sources: it is a parameter.
    Times are whole milliseconds. *)
Variable theme : EmotionTheme.
Variable element_disabled : bool.
Variable formatTime : Z -> string.

Definition with_ws (f : WaveSurfer -> WaveSurfer) : Action :=
  on_ui (fun s => setWavesurfer (f <$> wavesurfer s) s).

Definition with_rp (f : RecordPlugin -> RecordPlugin) : Action :=
  on_ui (fun s => setRecordPlugin (f <$> recordPlugin s) s).

(** The [.then] handler of [uploadTheFile]:
    [const upload = successfulUploads[0]
     if (upload && upload.fileUrl.deleteUrl) setDeleteFileUrl(...)]. *)
Definition onUploaded (res : UploadResult) (w : Sys) : JsResult Sys :=
  let upload := successfulUploads res !! 0%nat in
  if isNullOrUndefined upload then Ok w
  else
    match get_fileUrl upload with
    | Ok urls =>
        if truthy (deleteUrl urls)
        then Ok (on_ui (setDeleteFileUrl (deleteUrl urls)) w)
        else Ok w
    | TypeError => TypeError
    end.

(** [uploadTheFile(file)]: the call of [uploadFiles]; its promise is
    settled by a later event. *)
Definition uploadTheFile (file : File) : Action := on_env (uploadFiles file).

(** The [getAvailableAudioDevices().then] handler of the permission effect. *)
Definition onDevices (devices : list MediaDeviceInfo) : Action :=
  on_ui (setAvailableAudioDevices devices) >>>
  if (0 <? length devices)%nat
  then match devices !! 0%nat with
       | Some d => on_ui (setActiveAudioDeviceId (Some (deviceId d)))
       | None => skip
       end
  else skip.

(** The [.catch] handler of the permission effect. *)
Definition onPermissionError : Action := on_ui (setHasNoMicPermissions true).

Definition WaveSurfer_create : WaveSurfer :=
  {| ws_waveColor := colors_primary theme; ws_loaded := false;
     ws_playing := false |}.

Definition RecordPlugin_create : RecordPlugin :=
  {| rp_recording := false; rp_request := None; rp_stopping := false |}.

Definition initializeWaveSurfer : Action := fun w =>
  if negb (waveSurferRef (env w)) then w
  else (on_ui (setWavesurfer (Some WaveSurfer_create)) >>>
        on_ui (setRecordPlugin (Some RecordPlugin_create))) w.

(** [ws.on("timeupdate", ...)]: [time] is in seconds. *)
Definition on_timeupdate (time : Z) : Action :=
  on_ui (setProgressTime (formatTime (time * 1000))).

(** [ws.on("pause", ...)] *)
Definition on_pause : Action := on_ui forceRerender.

(** [rp.on("record-end", ...)] *)
Definition on_record_end (blob : Blob) : Action := fun w =>
  let url := nextObjectURL (env w) in
  let file := {| file_parts := [blob]; file_name := "audio.wav";
                 file_type := blob_type blob |} in
  (on_env createObjectURL >>>
   on_ui (setRecordingUrl (Some url)) >>>
   uploadTheFile file >>>
   with_ws (ws_setWaveColor "#A5A5AA")) w.

(** [rp.on("record-progress", ...)] *)
Definition on_record_progress (time : Z) : Action :=
  on_ui (setRecordingTime (formatTime time)).

Definition onClickPlayPause : Action := fun w =>
  match wavesurfer (ui w) with
  | Some _ =>
      (with_ws ws_playPause >>> on_ui (setShouldUpdatePlaybackTime true)) w
  | None => w
  end.

(** The guard of [startRecording]:
    [!recordPlugin || !activeAudioDeviceId || !wavesurfer]. *)
Definition startRecording_returns (s : AudioInputState) : bool :=
  isNullOrUndefined (recordPlugin s)
  || negb (truthy (activeAudioDeviceId s))
  || isNullOrUndefined (wavesurfer s).

Definition startRecording : Action := fun w =>
  if startRecording_returns (ui w) then w
  else
    match activeAudioDeviceId (ui w) with
    | Some dev =>
        (with_ws (ws_setWaveColor (colors_primary theme)) >>>
         with_rp (rp_startRecording dev)) w
    | None => w
    end.

(** The [.then] handler of [recordPlugin.startRecording(...)]. *)
Definition onRecordingStarted : Action := on_ui forceRerender.

Definition stopRecording : Action := fun w =>
  match recordPlugin (ui w) with
  | None => w
  | Some _ => with_rp rp_stopRecording w
  end.

(** [handleClear].  The callback reads [deleteFileUrl] and [recordingUrl]
    from the render it was created in: the values of [w], not those its own
    setters have queued. *)
Definition handleClear : Action := fun w =>
  match wavesurfer (ui w), deleteFileUrl (ui w) with
  | Some _, Some url =>
      (on_ui (setRecordingUrl None) >>>
       with_ws ws_empty >>>
       on_env (deleteFile url) >>>
       on_ui (setProgressTime STARTING_TIME_STRING) >>>
       on_ui (setRecordingTime STARTING_TIME_STRING) >>>
       on_ui (setDeleteFileUrl None) >>>
       on_env setFileUploaderStateValue >>>
       on_ui (setShouldUpdatePlaybackTime false) >>>
       match recordingUrl (ui w) with
       | Some rec => on_env (revokeObjectURL rec)
       | None => skip
       end) w
  | _, _ => w
  end.

(** ** What is rendered *)

(** [Boolean(recordPlugin?.isRecording())] *)
Definition isRecording (s : AudioInputState) : bool :=
  match recordPlugin s with
  | Some rp => rp_recording rp
  | None => false
  end.

(** [Boolean(wavesurfer?.isPlaying())] *)
Definition isPlaying (s : AudioInputState) : bool :=
  match wavesurfer s with
  | Some ws => ws_playing ws
  | None => false
  end.

Record View := {
  clearRecordingButton : bool;      (* the "Clear recording" toolbar action *)
  actionButtonDisabled : bool;
  recordingUrlExists : bool;
  isPlayingOrRecording : bool;
  showPlaceholder : bool;
  showNoMicPermissions : bool;
  timeCode : string
}.

Definition render (s : AudioInputState) : View :=
  {| clearRecordingButton := truthy (deleteFileUrl s);
     actionButtonDisabled := element_disabled || hasNoMicPermissions s;
     recordingUrlExists := truthy (recordingUrl s);
     isPlayingOrRecording := isRecording s || isPlaying s;
     showPlaceholder :=
       negb (isRecording s) && negb (truthy (recordingUrl s))
       && negb (hasNoMicPermissions s);
     showNoMicPermissions := hasNoMicPermissions s;
     timeCode :=
       if shouldUpdatePlaybackTime s then progressTime s else recordingTime s |}.

(** The status of the capture session, as the spec names it.  The component
    keeps no such field: it is read off the state the way the render
    does. *)
Inductive Status :=
| AwaitingPermission | NoPermission | Ready | Recording | Recorded.

Definition status (w : Sys) : Status :=
  if hasNoMicPermissions (ui w) then NoPermission
  else if isRecording (ui w) then Recording
  else if truthy (recordingUrl (ui w)) then Recorded
  else match micAccess (env w) with
       | Pending => AwaitingPermission
       | _ => Ready
       end.

(** The recording is retained: a backend exists and the object URL of the
    recording is live. *)
Definition retained (w : Sys) : bool :=
  match wavesurfer (ui w), recordingUrl (ui w) with
  | Some _, Some url => bool_decide (url ∈ objectUrls (env w))
  | _, _ => false
  end.

(** ** Events

    What happens to a mounted component: its effects run, promises settle,
    the backend emits, the user clicks.  The effect that calls
    [initializeWaveSurfer] runs on mount and again whenever [theme] or
    [uploadTheFile] changes: each run installs a fresh backend and plugin in
    the state and leaves the rest of it as it is (the cleanup that function
    returns is dropped by the effect; the instances it replaces are out of
    the component's reach and are not followed).  The callbacks handed to
    the action button can be called in any state; the clear action only
    where the toolbar renders it. *)

Inductive Event :=
| EvInitialize                                  (* the [initializeWaveSurfer] effect *)
| EvPermissionGranted                           (* [getUserMedia] resolves *)
| EvPermissionDenied                            (* [getUserMedia] rejects *)
| EvDevices (devices : list MediaDeviceInfo)    (* the device list arrives *)
| EvStartRecording                              (* click: record *)
| EvRecordingStarted                            (* the plugin's start promise resolves *)
| EvStopRecording                               (* click: stop *)
| EvRecordProgress (time : Z)
| EvRecordEnd (blob : Blob)
| EvUploadResolved (res : UploadResult)
| EvUploadRejected
| EvPlayPause                                   (* click: play or pause *)
| EvTimeUpdate (time : Z)
| EvPause
| EvClear.                                      (* click: clear recording *)

Definition guard (b : bool) (w : Sys) : option Sys :=
  if b then Some w else None.

(** One event; [None] when it cannot happen in [w]. *)
Definition step (e : Event) (w : Sys) : option Sys :=
  match e with
  | EvInitialize => Some (initializeWaveSurfer w)
  | EvPermissionGranted =>
      guard (bool_decide (micAccess (env w) = Pending))
            (on_env (setMicAccess Granted) w)
  | EvPermissionDenied =>
      guard (bool_decide (micAccess (env w) = Pending))
            ((on_env (setMicAccess Denied) >>> onPermissionError) w)
  | EvDevices devices =>
      guard (bool_decide (micAccess (env w) = Granted))
            ((on_env (setMicAccess Enumerated) >>> onDevices devices) w)
  | EvStartRecording => Some (startRecording w)
  | EvRecordingStarted =>
      match recordPlugin (ui w) with
      | Some rp =>
          guard (notNullOrUndefined (rp_request rp))
                ((with_rp rp_started >>> onRecordingStarted) w)
      | None => None
      end
  | EvStopRecording => Some (stopRecording w)
  | EvRecordProgress time =>
      guard (isRecording (ui w)) (on_record_progress time w)
  | EvRecordEnd blob =>
      match recordPlugin (ui w) with
      | Some rp =>
          guard (rp_stopping rp)
                ((with_rp rp_ended >>> with_ws ws_rendered >>>
                  on_record_end blob) w)
      | None => None
      end
  | EvUploadResolved res =>
      match uploadsInFlight (env w) with
      | [] => None
      | _ :: _ =>
          match onUploaded res (on_env uploadSettled w) with
          | Ok w' => Some w'
          | TypeError => Some (on_env uploadSettled w)
          end
      end
  | EvUploadRejected =>
      match uploadsInFlight (env w) with
      | [] => None
      | _ :: _ => Some (on_env uploadSettled w)
      end
  | EvPlayPause => Some (onClickPlayPause w)
  | EvTimeUpdate time =>
      guard (notNullOrUndefined (wavesurfer (ui w))) (on_timeupdate time w)
  | EvPause =>
      guard (notNullOrUndefined (wavesurfer (ui w)))
            ((with_ws ws_paused >>> on_pause) w)
  | EvClear =>
      guard (clearRecordingButton (render (ui w))) (handleClear w)
  end.

Fixpoint run (evs : list Event) (w : Sys) : option Sys :=
  match evs with
  | [] => Some w
  | e :: evs' =>
      match step e w with
      | Some w' => run evs' w'
      | None => None
      end
  end.

(** The component as first rendered, before its effects have run. *)
Definition mounted : Sys :=
  {| ui := {| wavesurfer := None; deleteFileUrl := None;
              recordPlugin := None; availableAudioDevices := [];
              activeAudioDeviceId := None; recordingUrl := None;
              rerender := 0;
              progressTime := STARTING_TIME_STRING;
              recordingTime := STARTING_TIME_STRING;
              shouldUpdatePlaybackTime := false;
              hasNoMicPermissions := false |};
     env := {| objectUrls := ∅; urlCounter := 0; micAccess := Pending;
               waveSurferRef := true; uploadsInFlight := [];
               deletedFiles := []; fileUploaderResets := 0 |} |}.

End AudioInput.

(** ** A concrete session to run the model on *)

Definition lightTheme : EmotionTheme :=
  {| colors_primary := "#ff4b4b"; colors_bodyText := "#31333F" |}.

(** A formatter in minutes and seconds, to instantiate [formatTime]. *)
Definition two_digits (n : Z) : string :=
  if (n <? 10)%Z then "0" +:+ pretty n else pretty n.

Definition mmss (ms : Z) : string :=
  let s := (ms / 1000)%Z in
  two_digits (s / 60) +:+ ":" +:+ two_digits (s mod 60).

Definition microphones : list MediaDeviceInfo :=
  [ {| deviceId := "default"; label := "Built-in microphone" |};
    {| deviceId := "usb-1"; label := "USB microphone" |} ].

Definition take1 : Blob := {| blob_bytes := [Byte.x52; Byte.x49]; blob_type := "audio/wav" |}.
Definition take2 : Blob := {| blob_bytes := [Byte.x46; Byte.x46]; blob_type := "audio/wav" |}.

Definition uploaded_as (b : Blob) (id : string) (del : option string) : UploadResult :=
  {| successfulUploads :=
       [ {| uploaded := {| file_parts := [b]; file_name := "audio.wav";
                           file_type := blob_type b |};
            fileUrl := {| fileId := id; uploadUrl := "/_stcore/upload_file/" +:+ id;
                          deleteUrl := del |} |} ] |}.

Abbreviation session := (run lightTheme false mmss).

(** Mount, grant the microphone, record once. *)
Definition first_take : list Event :=
  [ EvInitialize; EvPermissionGranted; EvDevices microphones;
    EvStartRecording; EvRecordingStarted; EvRecordProgress 3500;
    EvStopRecording; EvRecordEnd take1 ].

(** Record again without clearing. *)
Definition second_take : list Event :=
  [ EvStartRecording; EvRecordingStarted; EvStopRecording; EvRecordEnd take2 ].

(** The upload of a recording fails: its promise rejects, or resolves
    without a successful upload. *)
Definition upload_failed (e : Event) : bool :=
  match e with
  | EvUploadRejected => true
  | EvUploadResolved res =>
      match successfulUploads res with [] => true | _ :: _ => false end
  | _ => false
  end.

Definition recorded_once : Sys := default mounted (session first_take mounted).

(** The sink has stored the first take. *)
Definition first_upload : Event :=
  EvUploadResolved (uploaded_as take1 "f1" (Some "/_stcore/upload_file/s1/f1")).

Definition uploaded_once : Sys :=
  default mounted (session (first_take ++ [first_upload]) mounted).

(** The microphone was refused, and the user keeps trying. *)
Definition refused : list Event :=
  [EvInitialize] ++ EvPermissionDenied :: [EvStartRecording; EvPlayPause; EvStartRecording].

Definition refused_session : Sys := default mounted (session refused mounted).

(** The permission has been granted and the device list is awaited. *)
Definition granted : Sys :=
  default mounted (session [EvInitialize; EvPermissionGranted] mounted).

Definition enumerated : Sys :=
  default mounted (step lightTheme false mmss (EvDevices microphones) granted).


(** A state that holds an upload handle but no backend. *)
Definition unbacked : Sys :=
  on_ui (setDeleteFileUrl (Some "/_stcore/upload_file/s1/f1")) mounted.

(** ** Invariants of a mounted component *)

(** The plugin is recording, about to, or owes a [record-end]. *)
Definition plugin_busy (s : AudioInputState) : bool :=
  match recordPlugin s with
  | Some rp => rp_recording rp || notNullOrUndefined (rp_request rp) || rp_stopping rp
  | None => false
  end.

Record Inv (w : Sys) : Prop := {
  inv_backend :
    isNullOrUndefined (wavesurfer (ui w)) = isNullOrUndefined (recordPlugin (ui w));
  inv_denied :
    hasNoMicPermissions (ui w) = bool_decide (micAccess (env w) = Denied);
  inv_device :
    activeAudioDeviceId (ui w) ≠ None → micAccess (env w) = Enumerated;
  inv_busy :
    plugin_busy (ui w) = true → micAccess (env w) = Enumerated;
  inv_recording :
    recordingUrl (ui w) ≠ None →
    micAccess (env w) = Enumerated ∧ retained w = true;
  inv_upload :
    uploadsInFlight (env w) ≠ [] → wavesurfer (ui w) ≠ None;
  inv_handle :
    deleteFileUrl (ui w) ≠ None →
    wavesurfer (ui w) ≠ None ∧ truthy (deleteFileUrl (ui w)) = true
}.

(** The file the [record-end] handler builds from a blob. *)
Definition audio_wav (f : File) : bool :=
  match file_parts f with
  | [b] => String.eqb (file_name f) "audio.wav"
           && String.eqb (file_type f) (blob_type b)
  | _ => false
  end.

(** More of what a mounted component keeps: what the plugin is asked for,
    what is handed to the upload sink, and what is known before the device
    list has arrived. *)
Record Inv2 (w : Sys) : Prop := {
  inv_request :
    ∀ rp d, recordPlugin (ui w) = Some rp → rp_request rp = Some d →
            activeAudioDeviceId (ui w) = Some d;
  inv_busy_device :
    plugin_busy (ui w) = true → truthy (activeAudioDeviceId (ui w)) = true;
  inv_files :
    forallb audio_wav (uploadsInFlight (env w)) = true;
  inv_catalog :
    micAccess (env w) ≠ Enumerated → availableAudioDevices (ui w) = [];
  inv_sink :
    micAccess (env w) ≠ Enumerated →
    deleteFileUrl (ui w) = None ∧ uploadsInFlight (env w) = []
    ∧ deletedFiles (env w) = [] ∧ objectUrls (env w) = ∅
}.







(** The deletion URLs the upload sink has handed out in a run. *)
Definition offered_by (e : Event) : list string :=
  match e with
  | EvUploadResolved res =>
      match successfulUploads res !! 0%nat with
      | Some u =>
          match deleteUrl (fileUrl u) with
          | Some d => [d]
          | None => []
          end
      | None => []
      end
  | _ => []
  end.

Definition offered (evs : list Event) : list string :=
  concat (map offered_by evs).

(** What the component holds or has asked to delete was handed out by the
    sink in the events [evs]. *)
Definition handles_offered (evs : list Event) (w : Sys) : Prop :=
  (∀ d, deleteFileUrl (ui w) = Some d → d ∈ offered evs)
  ∧ (∀ d, d ∈ deletedFiles (env w) → d ∈ offered evs).

(** More sessions to run the model on. *)

(** The device list has arrived but the backend effect has not run. *)
Definition no_backend : Sys :=
  default mounted (session [EvPermissionGranted; EvDevices microphones] mounted).

(** The record button has been clicked; the plugin has not started yet. *)
Definition start_requested : Sys :=
  default mounted
    (session [EvInitialize; EvPermissionGranted; EvDevices microphones;
              EvStartRecording] mounted).

(** The first take has been played, then a second take is started. *)
Definition played : Sys :=
  default mounted (session (first_take ++ [EvPlayPause]) mounted).

Definition played_then_started : Sys :=
  default mounted (step lightTheme false mmss EvStartRecording played).

(** Two takes, the first one uploaded; then a clear. *)
Definition two_takes : Sys :=
  default mounted
    (session (first_take ++ [first_upload] ++ second_take) mounted).

Definition two_takes_cleared : Sys :=
  default mounted (step lightTheme false mmss EvClear two_takes).

(** One take, uploaded and cleared. *)
Definition cleared_once : Sys :=
  default mounted (session (first_take ++ [first_upload; EvClear]) mounted).

(** A browser that lists one device without an id. *)
Definition anonymous_devices : list MediaDeviceInfo :=
  [ {| deviceId := ""; label := "" |} ].

Definition anonymous_session : Sys :=
  default mounted
    (session ([EvInitialize; EvPermissionGranted]
              ++ EvDevices anonymous_devices :: [EvStartRecording]) mounted).

(** * ImageList: a horizontal list of images

    [frontend/lib/src/components/elements/ImageList/ImageList.tsx].  The
    column width and the height are JavaScript numbers that the component
    only copies and tests for truthiness: their type is a parameter.  The
    width of the proto is an integer. *)

Module ImageList.

(** [enum WidthBehavior] *)
Definition OriginalWidth : Z := -1.
Definition ColumnWidth : Z := -2.
Definition AutoWidth : Z := -3.

Record ImageProto := {
  url : string;
  caption : string
}.

Record ImageListProto := {
  imgs : list ImageProto;
  width : Z
}.

(** What a call returns, or the message of the [Error] it throws. *)
Inductive Outcome (A : Type) : Type :=
| Returned (a : A)
| Thrown (msg : string).

Arguments Returned {A} a.
Arguments Thrown {A} msg.

Section Component.

Variable number : Type.
Variable fromInt : Z -> number.           (* an integer as a number *)
Variable numberTruthy : number -> bool.   (* neither 0 nor NaN *)
Variable buildMediaURL : string -> string. (* [endpoints.buildMediaURL] *)

Record ImageListProps := {
  props_width : number;
  isFullScreen : bool;
  element : ImageListProto;
  height : option number
}.

(** The [imgStyle] object; a property that is absent or [undefined] is
    [None]. *)
Record ImgStyle := {
  maxHeight : option number;
  objectFit : option string;
  style_width : option number;
  maxWidth : option string
}.

Record ImageContainer := {
  key : nat;
  img_style : ImgStyle;
  src : string;
  alt : string;
  captionText : option string      (* the [StyledCaption], when rendered *)
}.

Record Rendered := {
  list_width : number;             (* [style={{ width }}] of the list *)
  containers : list ImageContainer
}.

(** The first [if] chain: the width of the images, or the throw. *)
Definition containerWidth (protoWidth : Z) (colWidth : number)
  : Outcome (option number) :=
  if (protoWidth =? OriginalWidth)%Z || (protoWidth =? AutoWidth)%Z
  then Returned None
  else if (protoWidth =? ColumnWidth)%Z then Returned (Some colWidth)
  else if (0 <? protoWidth)%Z then Returned (Some (fromInt protoWidth))
  else Thrown ("Invalid image width: " +:+ pretty protoWidth).

(** [height && isFullScreen] *)
Definition fullScreenHeight (h : option number) (fullScreen : bool) : bool :=
  match h with
  | Some n => numberTruthy n && fullScreen
  | None => false
  end.

Definition imgStyle (h : option number) (fullScreen : bool)
    (protoWidth : Z) (cw : option number) : ImgStyle :=
  if fullScreenHeight h fullScreen
  then {| maxHeight := h; objectFit := Some "contain";
          style_width := None; maxWidth := None |}
  else {| maxHeight := None; objectFit := None;
          style_width := cw;
          maxWidth := if (protoWidth =? AutoWidth)%Z
                      then Some "100%" else None |}.

(** The callback of [element.imgs.map]. *)
Definition renderImage (style : ImgStyle) (idx : nat) (image : ImageProto)
  : ImageContainer :=
  {| key := idx;
     img_style := style;
     src := buildMediaURL (url image);
     alt := pretty idx;
     captionText :=
       if String.eqb (caption image) "" then None
       else Some (" " +:+ caption image +:+ " ") |}.

Definition ImageList (props : ImageListProps) : Outcome Rendered :=
  let protoWidth := width (element props) in
  match containerWidth protoWidth (props_width props) with
  | Thrown msg => Thrown msg
  | Returned cw =>
      let style := imgStyle (height props) (isFullScreen props) protoWidth cw in
      Returned {| list_width := props_width props;
                  containers := imap (renderImage style) (imgs (element props)) |}
  end.

End Component.

Arguments props_width {number} _.
Arguments isFullScreen {number} _.
Arguments element {number} _.
Arguments height {number} _.
Arguments maxHeight {number} _.
Arguments objectFit {number} _.
Arguments style_width {number} _.
Arguments maxWidth {number} _.
Arguments key {number} _.
Arguments img_style {number} _.
Arguments src {number} _.
Arguments alt {number} _.
Arguments captionText {number} _.
Arguments list_width {number} _.
Arguments containers {number} _.

(** A list to run the component on: numbers are integers. *)
Definition gallery : ImageListProto :=
  {| imgs := [ {| url := "/media/a.png"; caption := "first" |};
               {| url := "/media/b.png"; caption := "" |} ];
     width := 320 |}.

Definition gallery_props : ImageListProps Z :=
  {| props_width := 704%Z; isFullScreen := false; element := gallery;
     height := None |}.

Definition zoomed_props : ImageListProps Z :=
  {| props_width := 1280%Z; isFullScreen := true; element := gallery;
     height := Some 720%Z |}.

Definition run_gallery (props : ImageListProps Z) : Outcome (Rendered Z) :=
  ImageList Z id (fun n => negb (n =? 0)%Z) (fun u => "http://host" +:+ u) props.

End ImageList.

Section Properties.

Variable theme : EmotionTheme.
Variable element_disabled : bool.
Variable formatTime : Z -> string.

Abbreviation step_ := (step theme element_disabled formatTime).
Abbreviation run_ := (run theme element_disabled formatTime).

Lemma guard_Some b w w' : guard b w = Some w' → b = true ∧ w' = w.
Proof. destruct b; simpl; [intros [= <-]; auto | discriminate]. Qed.

Lemma run_app evs1 evs2 w :
  run_ (evs1 ++ evs2) w = run_ evs1 w ≫= run_ evs2.
Proof.
  revert w. induction evs1 as [|e evs1 IH]; intros w; simpl; [done|].
  destruct (step_ e w); simpl; auto.
Qed.

Lemma mounted_Inv : Inv mounted.
Proof. split; simpl; try done; intros []; done. Qed.

(** The upload handler never throws: [upload &&] guards the property read. *)
Lemma onUploaded_total res w : ∃ w', onUploaded res w = Ok w'.
Proof.
  unfold onUploaded.
  destruct (successfulUploads res !! 0%nat) as [u|]; simpl; [|eauto].
  destruct (truthy (deleteUrl (fileUrl u))); eauto.
Qed.

Lemma onUploaded_cases res w w' :
  onUploaded res w = Ok w' →
  w' = w ∨
  ∃ url, truthy (Some url) = true ∧ w' = on_ui (setDeleteFileUrl (Some url)) w.
Proof.
  unfold onUploaded.
  destruct (successfulUploads res !! 0%nat) as [u|]; simpl; [|intros [= <-]; auto].
  destruct (deleteUrl (fileUrl u)) as [url|] eqn:E; simpl; [|intros [= <-]; auto].
  destruct (negb (String.eqb url "")) eqn:T; intros [= <-]; eauto.
Qed.

Lemma blobUrl_in_store e : nextObjectURL e ∈ objectUrls (createObjectURL e).
Proof. simpl. set_solver. Qed.

(** *** The invariant is kept by every event *)

Ltac open_step H :=
  repeat match type of H with
  | guard _ _ = Some _ => apply guard_Some in H as [? ->]
  | Some _ = Some _ => injection H as <-
  | None = Some _ => discriminate H
  | context [match ?x with _ => _ end] => destruct x eqn:?; simpl in H
  end.

Ltac use_eqs :=
  repeat match goal with
  | H : ?x = Some _ |- context [?x] => rewrite H
  | H : ?x = None |- context [?x] => rewrite H
  end; simpl.

Ltac use_inv :=
  repeat match goal with
  | H : ?P → _, H' : ?P |- _ => specialize (H H')
  | H : Some _ ≠ None → _ |- _ => specialize (H ltac:(done))
  | H : _ :: _ ≠ [] → _ |- _ => specialize (H ltac:(done))
  | H : _ ∧ _ |- _ => destruct H
  | H : bool_decide _ = true |- _ => apply bool_decide_eq_true in H
  end;
  try congruence; try done;
  try match goal with
  | H : hasNoMicPermissions _ = _ |- _ =>
      rewrite H; repeat case_bool_decide; congruence
  end.

Ltac inv_split :=
  split; unfold plugin_busy, retained; simpl; use_eqs; intros;
  try done; try tauto; use_inv.

Lemma step_Inv e w w' : Inv w → step_ e w = Some w' → Inv w'.
Proof.
  intros HI Hstep.
  destruct w as [s en]. pose proof HI as [Hb Hd Hv Hp Hr Hu Hh].
  unfold plugin_busy, retained in *. simpl in *.
  destruct e; simpl in Hstep; open_step Hstep.
  all: unfold startRecording, stopRecording, onClickPlayPause, handleClear,
         initializeWaveSurfer, startRecording_returns, onDevices in *;
       simpl in *.
  - (* EvInitialize *)
    destruct (waveSurferRef en); simpl; [|done].
    destruct (wavesurfer s) as [ws|] eqn:Ews; inv_split.
  - (* EvPermissionGranted *) inv_split.
  - (* EvPermissionDenied *) inv_split.
  - (* EvDevices *) destruct devices as [|d ds]; simpl; inv_split.
  - (* EvStartRecording *)
    destruct (recordPlugin s) as [rp|] eqn:Erp; simpl; [|done].
    destruct (activeAudioDeviceId s) as [dev|] eqn:Edev; simpl; [|done].
    destruct (negb (String.eqb dev "")) eqn:Ene; simpl; [|done].
    destruct (wavesurfer s) as [ws|] eqn:Ews; simpl; [|done].
    inv_split.
  - (* EvRecordingStarted *)
    destruct (wavesurfer s) as [ws|] eqn:Ews; [|done].
    inv_split.
    match goal with
    | Hreq : notNullOrUndefined (rp_request ?r) = true |- _ =>
        apply Hp; rewrite Hreq; by destruct (rp_recording r)
    end.
  - (* EvStopRecording *)
    destruct (recordPlugin s) as [rp|] eqn:Erp; [|done].
    destruct (wavesurfer s) as [ws|] eqn:Ews; [|done].
    unfold rp_stopRecording.
    inv_split.
    apply Hp. destruct (rp_recording rp) eqn:Erec; simpl in *; [done|].
    match goal with Hbusy : _ = true |- _ => by rewrite Erec in Hbusy end.
  - (* EvRecordProgress *) inv_split.
  - (* EvRecordEnd *)
    destruct (wavesurfer s) as [ws|] eqn:Ews; [|done].
    assert (micAccess en = Enumerated) as Hen.
    { match goal with
      | Hstop : rp_stopping _ = true |- _ =>
          apply Hp; rewrite Hstop; apply orb_true_r
      end. }
    inv_split.
    split; [done|]. apply bool_decide_eq_true. clear. set_solver.
  - (* EvUploadResolved, the handler returns *)
    match goal with
    | Hup : onUploaded _ _ = Ok _ |- _ =>
        destruct (onUploaded_cases _ _ _ Hup) as [Hw|(url & Hurl & Hw)]
    end; subst; inv_split.
  - (* EvUploadResolved, the handler throws *) inv_split.
  - (* EvUploadRejected *) inv_split.
  - (* EvPlayPause *)
    destruct (wavesurfer s) as [ws|] eqn:Ews; [|done].
    inv_split.
  - (* EvTimeUpdate *) inv_split.
  - (* EvPause *)
    destruct (wavesurfer s) as [ws|] eqn:Ews; [|done].
    inv_split.
  - (* EvClear *)
    destruct (wavesurfer s) as [ws|] eqn:Ews; [|done].
    destruct (deleteFileUrl s) as [url|] eqn:Eurl; [|done].
    destruct (recordingUrl s) as [rec|] eqn:Erec; inv_split.
Qed.

Lemma run_Inv evs w w' : Inv w → run_ evs w = Some w' → Inv w'.
Proof.
  revert w. induction evs as [|e evs IH]; simpl; intros w HI Hrun.
  - by injection Hrun as <-.
  - destruct (step_ e w) as [w1|] eqn:E; [|done].
    eapply IH; [|done]. by eapply step_Inv.
Qed.

Lemma reachable_Inv evs w : run_ evs mounted = Some w → Inv w.
Proof. apply run_Inv, mounted_Inv. Qed.

(** ** clear() *)

(** C2. In a state without an upload handle ([deleteFileUrl] is null),
    [handleClear] is a no-op: the component state and everything around it
    are what they were, so no object URL is revoked and no deletion is asked
    of the upload client; the toolbar does not even offer the action. *)
Theorem handleClear_without_upload_handle (w : Sys) :
  deleteFileUrl (ui w) = None →
  handleClear w = w
  ∧ objectUrls (env (handleClear w)) = objectUrls (env w)
  ∧ deletedFiles (env (handleClear w)) = deletedFiles (env w)
  ∧ step_ EvClear w = None.
Proof.
  intros Hnone.
  assert (handleClear w = w) as Hnoop.
  { unfold handleClear. rewrite Hnone. by destruct (wavesurfer (ui w)). }
  rewrite Hnoop. split_and!; try done.
  simpl. by rewrite Hnone.
Qed.

Lemma handleClear_effective (w : Sys) ws url :
  wavesurfer (ui w) = Some ws → deleteFileUrl (ui w) = Some url →
  deletedFiles (env (handleClear w)) = (deletedFiles (env w) ++ [url])%list.
Proof.
  intros Hws Hurl. unfold handleClear. rewrite Hws, Hurl.
  by destruct (recordingUrl (ui w)).
Qed.

(** C10. With no backend ([wavesurfer] is null) [handleClear] is a no-op,
    upload handle or not; whenever it does anything, both the backend and
    an upload handle were there. *)
Theorem handleClear_requires_backend_and_handle (w : Sys) :
  (wavesurfer (ui w) = None → handleClear w = w)
  ∧ (handleClear w ≠ w →
     is_Some (wavesurfer (ui w)) ∧ is_Some (deleteFileUrl (ui w))).
Proof.
  split.
  - intros Hnone. unfold handleClear. by rewrite Hnone.
  - unfold handleClear.
    destruct (wavesurfer (ui w)); [|done].
    destruct (deleteFileUrl (ui w)); [|done].
    eauto.
Qed.

(** C3. From a Recorded session that holds an upload handle, [handleClear]
    leaves the status Ready, both time codes at "00:00", no upload handle,
    and the object URL of the recording revoked; the deletion of the
    uploaded file has been asked of the upload client. *)
Theorem handleClear_resets_recorded_session evs (w : Sys) url :
  run_ evs mounted = Some w →
  status w = Recorded →
  deleteFileUrl (ui w) = Some url →
  status (handleClear w) = Ready
  ∧ progressTime (ui (handleClear w)) = "00:00"
  ∧ recordingTime (ui (handleClear w)) = "00:00"
  ∧ deleteFileUrl (ui (handleClear w)) = None
  ∧ recordingUrl (ui (handleClear w)) = None
  ∧ (∃ rec, recordingUrl (ui w) = Some rec
            ∧ rec ∉ objectUrls (env (handleClear w)))
  ∧ deletedFiles (env (handleClear w)) = (deletedFiles (env w) ++ [url])%list.
Proof.
  intros Hrun Hst Hurl.
  destruct (reachable_Inv _ _ Hrun) as [Hb Hd Hv Hp Hr Hu Hh].
  destruct Hh as [Hws _]; [by rewrite Hurl|].
  destruct (wavesurfer (ui w)) as [ws|] eqn:Ews; [clear Hws|done].
  unfold status in Hst.
  destruct (hasNoMicPermissions (ui w)) eqn:Emic; [done|].
  destruct (isRecording (ui w)) eqn:Erec; [done|].
  destruct (truthy (recordingUrl (ui w))) eqn:Etr;
    [|by destruct (micAccess (env w))].
  destruct (recordingUrl (ui w)) as [rec|] eqn:Eurl; [|done].
  destruct Hr as [Hen _]; [done|].
  unfold handleClear. rewrite Ews, Hurl, Eurl.
  unfold status, isRecording in *. simpl. rewrite Emic, Hen.
  destruct (recordPlugin (ui w)) as [rp|]; simpl in *; rewrite ?Erec.
  all: split_and!; try done.
  exists rec. split; [done|].
  intros [_ Hne]%elem_of_difference. apply Hne. by apply elem_of_singleton.
Qed.

(** ** The permission effect *)

(** C4. When the device list arrives after the grant, the component stores
    it and makes the device at index 0 the active one; with an empty list
    no device is active. *)
Theorem devices_select_first evs (w w' : Sys) devices :
  run_ evs mounted = Some w →
  step_ (EvDevices devices) w = Some w' →
  availableAudioDevices (ui w') = devices
  ∧ activeAudioDeviceId (ui w') = deviceId <$> head devices.
Proof.
  intros Hrun Hstep.
  destruct (reachable_Inv _ _ Hrun) as [_ _ Hv _ _ _ _].
  simpl in Hstep. apply guard_Some in Hstep as [Hg ->].
  apply bool_decide_eq_true in Hg.
  unfold onDevices. destruct devices as [|d ds]; simpl; [|done].
  split; [done|].
  destruct (activeAudioDeviceId (ui w)); [|done].
  rewrite Hv in Hg; done.
Qed.

Lemma step_Denied e (w w' : Sys) :
  micAccess (env w) = Denied → step_ e w = Some w' →
  micAccess (env w') = Denied.
Proof.
  intros Hden Hstep.
  destruct e; simpl in Hstep; open_step Hstep.
  all: unfold startRecording, stopRecording, onClickPlayPause, handleClear,
         initializeWaveSurfer, onDevices in *; simpl in *.
  all: repeat match goal with
       | H : bool_decide _ = true |- _ => apply bool_decide_eq_true in H
       | H : onUploaded _ _ = Ok _ |- _ =>
           destruct (onUploaded_cases _ _ _ H) as [?|(? & ? & ?)]; clear H
       end; subst; try congruence; try done.
  all: repeat match goal with
       | |- context [match ?x with _ => _ end] => destruct x
       | |- context [if ?x then _ else _] => destruct x
       end; simpl; done.
Qed.

Lemma run_Denied evs (w w' : Sys) :
  micAccess (env w) = Denied → run_ evs w = Some w' →
  micAccess (env w') = Denied.
Proof.
  revert w. induction evs as [|e evs IH]; simpl; intros w Hden Hrun.
  - by injection Hrun as <-.
  - destruct (step_ e w) as [w1|] eqn:E; [|done].
    eapply IH; [|done]. by eapply step_Denied.
Qed.

(** C5. Once the permission request has been denied, whatever happens next,
    the status is NoPermission, [startRecording] is a no-op, and the plugin
    is not recording. *)
Theorem denied_session_never_records evs1 evs2 (w : Sys) :
  run_ (evs1 ++ EvPermissionDenied :: evs2) mounted = Some w →
  status w = NoPermission
  ∧ startRecording theme w = w
  ∧ isRecording (ui w) = false.
Proof.
  intros Hrun.
  pose proof (reachable_Inv _ _ Hrun) as [_ Hd Hv Hp _ _ _].
  rewrite run_app in Hrun.
  destruct (run_ evs1 mounted) as [w1|]; [simpl in Hrun|done].
  destruct (guard _ _) as [w2|] eqn:Hg in Hrun; [|done].
  apply guard_Some in Hg as [_ ->].
  apply run_Denied in Hrun; [|done].
  assert (hasNoMicPermissions (ui w) = true) as Hno
    by (rewrite Hd; by apply bool_decide_eq_true).
  assert (activeAudioDeviceId (ui w) = None) as Hdev.
  { destruct (activeAudioDeviceId (ui w)); [|done].
    rewrite Hv in Hrun; done. }
  assert (plugin_busy (ui w) = false) as Hidle.
  { destruct (plugin_busy (ui w)); [|done]. rewrite Hp in Hrun; done. }
  split_and!.
  - unfold status. by rewrite Hno.
  - unfold startRecording, startRecording_returns. rewrite Hdev. simpl.
    by rewrite orb_true_r.
  - unfold plugin_busy in Hidle. unfold isRecording.
    destruct (recordPlugin (ui w)) as [rp|]; [|done].
    by destruct (rp_recording rp).
Qed.

(** ** startRecording() *)

(** C6, as the code has it.  In a mounted component [startRecording] is a
    no-op exactly when its guard returns: the plugin, the backend or a
    non-empty active device id is missing.  Otherwise, whatever the status
    (Ready, or Recorded for a new take), it asks the plugin to record from
    the active device, and the status is Recording once that request
    resolves. *)
Theorem startRecording_by_guard evs (w : Sys) :
  run_ evs mounted = Some w →
  if startRecording_returns (ui w)
  then startRecording theme w = w
  else ∃ dev w',
    activeAudioDeviceId (ui w) = Some dev
    ∧ rp_request <$> recordPlugin (ui (startRecording theme w)) = Some (Some dev)
    ∧ step_ EvRecordingStarted (startRecording theme w) = Some w'
    ∧ status w' = Recording.
Proof.
  intros Hrun.
  destruct (reachable_Inv _ _ Hrun) as [_ Hd Hv _ _ _ _].
  unfold startRecording.
  destruct (startRecording_returns (ui w)) eqn:Hret; [done|].
  unfold startRecording_returns in Hret.
  destruct (recordPlugin (ui w)) as [rp|] eqn:Erp; [|done].
  destruct (activeAudioDeviceId (ui w)) as [dev|] eqn:Edev; [|done].
  destruct (wavesurfer (ui w)) as [ws|] eqn:Ews;
    [|by rewrite orb_true_r in Hret].
  rewrite Hv in Hd by done.
  exists dev. eexists. split; [done|].
  simpl. rewrite Erp. simpl. split; [done|]. split; [done|].
  unfold status, isRecording. simpl. rewrite Erp, Hd. done.
Qed.

(** ** Uploading the recording *)

(** C9. When the list of successful uploads is empty, or its first entry
    has no deletion URL, the handler of the upload returns without an
    exception and leaves the whole system as it was: no upload handle is
    stored. *)
Theorem onUploaded_without_delete_url res (w : Sys) :
  successfulUploads res = []
  ∨ (∃ u, head (successfulUploads res) = Some u
          ∧ truthy (deleteUrl (fileUrl u)) = false) →
  onUploaded res w = Ok w.
Proof.
  unfold onUploaded. intros [Hnil|(u & Hhd & Hfalsy)].
  - by rewrite Hnil.
  - destruct (successfulUploads res) as [|u' us]; [done|].
    injection Hhd as ->. simpl. by rewrite Hfalsy.
Qed.

(** What a failed upload leaves alone: the whole component state, the
    object URLs and the deletion requests; only the upload is no longer in
    flight. *)
Lemma upload_failure_changes_nothing e (w w' : Sys) :
  upload_failed e = true →
  step_ e w = Some w' →
  w' = on_env uploadSettled w.
Proof.
  intros Hfail Hstep.
  destruct e; try discriminate Hfail; simpl in *.
  - destruct (successfulUploads res) eqn:Eres; [|done].
    destruct (uploadsInFlight (env w)); [done|].
    unfold onUploaded in Hstep. rewrite Eres in Hstep. simpl in Hstep.
    by injection Hstep as <-.
  - destruct (uploadsInFlight (env w)); [done|]. by injection Hstep as <-.
Qed.

(** ** More invariants *)

Lemma mounted_Inv2 : Inv2 mounted.
Proof. split; simpl; try done. Qed.

Lemma Inv2_ext (w w' : Sys) :
  recordPlugin (ui w') = recordPlugin (ui w) →
  activeAudioDeviceId (ui w') = activeAudioDeviceId (ui w) →
  availableAudioDevices (ui w') = availableAudioDevices (ui w) →
  uploadsInFlight (env w') = uploadsInFlight (env w) →
  micAccess (env w') = micAccess (env w) →
  deleteFileUrl (ui w') = deleteFileUrl (ui w) →
  deletedFiles (env w') = deletedFiles (env w) →
  objectUrls (env w') = objectUrls (env w) →
  Inv2 w → Inv2 w'.
Proof.
  intros E1 E2 E3 E4 E5 E6 E7 E8 [Hq Hbd Hf Hc Hs].
  split; unfold plugin_busy in *;
    rewrite ?E1, ?E2, ?E3, ?E4, ?E5, ?E6, ?E7, ?E8; done.
Qed.

Ltac upload_settled_Inv2 Hf Hs :=
  split; unfold plugin_busy; simpl; try done;
  [ match goal with
    | Heq : uploadsInFlight _ = _ :: _ |- _ => rewrite Heq
    end; simpl; by apply andb_true_iff in Hf as [_ ?]
  | intros Hne; by destruct (Hs Hne) as (_ & ? & _) ].

Lemma step_Inv2 e w w' : Inv w → Inv2 w → step_ e w = Some w' → Inv2 w'.
Proof.
  intros HI HI2 Hstep.
  destruct w as [s en]. pose proof HI as [Hb Hd Hv Hp Hr Hu Hh].
  pose proof HI2 as [Hq Hbd Hf Hc Hs].
  unfold plugin_busy, retained in *. simpl in *.
  destruct e; simpl in Hstep; open_step Hstep.
  all: unfold startRecording, stopRecording, onClickPlayPause, handleClear,
         initializeWaveSurfer, startRecording_returns, onDevices in *;
       simpl in *.
  all: try (match goal with
       | Hup : onUploaded _ _ = Ok _ |- _ =>
           destruct (onUploaded_cases _ _ _ Hup) as [?|(? & ? & ?)]; subst
       end).
  all: try (repeat match goal with
            | |- context [match ?x with _ => _ end] => destruct x eqn:?
            end; by (apply HI2 || (eapply Inv2_ext; [..|apply HI2]; simpl; done))).
  - (* EvInitialize *)
    destruct (waveSurferRef en); simpl; [|apply HI2].
    split; simpl; try done. by intros rp d [= <-].
  - (* EvPermissionGranted *)
    match goal with
    | Hg : bool_decide _ = true |- _ => apply bool_decide_eq_true in Hg;
        rename Hg into Hpe
    end.
    split; unfold plugin_busy; simpl; try done;
      intros _; first [apply Hc|apply Hs]; by rewrite Hpe.
  - (* EvPermissionDenied *)
    match goal with
    | Hg : bool_decide _ = true |- _ => apply bool_decide_eq_true in Hg;
        rename Hg into Hpe
    end.
    split; unfold plugin_busy; simpl; try done;
      intros _; first [apply Hc|apply Hs]; by rewrite Hpe.
  - (* EvDevices *)
    match goal with
    | Hg : bool_decide _ = true |- _ => apply bool_decide_eq_true in Hg;
        rename Hg into Hgr
    end.
    assert (match recordPlugin s with
            | Some rp => rp_recording rp || notNullOrUndefined (rp_request rp)
                         || rp_stopping rp
            | None => false
            end = false) as Hidle.
    { destruct (match recordPlugin s with Some _ => _ | None => _ end);
        [|done]. rewrite Hp in Hgr; done. }
    assert (∀ rp d, recordPlugin s = Some rp → rp_request rp ≠ Some d) as Hnoreq.
    { intros rp d Erp Ereq. rewrite Erp, Ereq in Hidle.
      simpl in Hidle. by rewrite orb_true_r in Hidle. }
    destruct devices as [|d ds]; simpl.
    all: split; unfold plugin_busy; simpl; try done.
    all: first [ by rewrite Hidle
               | intros rp d0 Erp Ereq; by destruct (Hnoreq rp d0)
               | by intros [] ].
  - (* EvStartRecording *)
    destruct (recordPlugin s) as [rp|] eqn:Erp; simpl; [|apply HI2].
    destruct (activeAudioDeviceId s) as [dev|] eqn:Edev; simpl; [|apply HI2].
    destruct (negb (String.eqb dev "")) eqn:Ene; simpl; [|apply HI2].
    destruct (wavesurfer s) as [ws|] eqn:Ews; simpl; [|apply HI2].
    split; unfold plugin_busy; simpl; rewrite ?Erp, ?Edev; simpl; try done.
    by intros rp' d [= <-] [= <-].
  - (* EvRecordingStarted *)
    match goal with
    | Erp : recordPlugin s = Some ?r,
      Hreq : notNullOrUndefined (rp_request ?r) = true |- _ =>
        split; unfold plugin_busy; simpl; rewrite ?Erp; simpl; try done;
        [ by intros rp' d [= <-]
        | intros _; apply Hbd; rewrite Hreq; by destruct (rp_recording r) ]
    end.
  - (* EvStopRecording *)
    destruct (recordPlugin s) as [rp|] eqn:Erp; [|apply HI2].
    unfold rp_stopRecording.
    split; unfold plugin_busy; simpl; rewrite ?Erp; simpl; try done.
    + intros rp' d [= <-] Ereq. apply (Hq rp d eq_refl).
      by destruct (rp_recording rp).
    + intros Hbusy. apply Hbd.
      destruct (rp_recording rp) eqn:Erec; simpl in *; [done|].
      by rewrite Erec in Hbusy.
  - (* EvRecordEnd *)
    match goal with
    | Erp : recordPlugin s = Some ?r, Hstop : rp_stopping ?r = true |- _ =>
        assert (micAccess en = Enumerated) as Hen
          by (apply Hp; rewrite Hstop; apply orb_true_r);
        split; unfold plugin_busy; simpl; rewrite ?Erp; simpl; try done;
        [ intros rp' d [= <-] Ereq; by apply (Hq r d eq_refl)
        | intros _; apply Hbd; rewrite Hstop; apply orb_true_r
        | rewrite forallb_app, Hf; unfold audio_wav; simpl;
          by rewrite String.eqb_refl ]
    end.
  - (* EvUploadResolved, nothing stored *) upload_settled_Inv2 Hf Hs.
  - (* EvUploadResolved, a handle stored *) upload_settled_Inv2 Hf Hs.
  - (* EvUploadResolved, the handler throws *) upload_settled_Inv2 Hf Hs.
  - (* EvUploadRejected *) upload_settled_Inv2 Hf Hs.
  - (* EvClear *)
    destruct (wavesurfer s) as [ws|] eqn:Ews; [|apply HI2].
    destruct (deleteFileUrl s) as [url|] eqn:Eurl; [|apply HI2].
    assert (micAccess en = Enumerated) as Hen.
    { destruct (decide (micAccess en = Enumerated)) as [|Hne]; [done|].
      by destruct (Hs Hne). }
    destruct (recordingUrl s) as [rec|] eqn:Erec;
      split; unfold plugin_busy; simpl; try done.
Qed.

Lemma run_Inv2 evs w w' : Inv w → Inv2 w → run_ evs w = Some w' → Inv2 w'.
Proof.
  revert w. induction evs as [|e evs IH]; simpl; intros w HI HI2 Hrun.
  - by injection Hrun as <-.
  - destruct (step_ e w) as [w1|] eqn:E; [|done].
    eapply IH; [| |done]; [by eapply step_Inv|by eapply step_Inv2].
Qed.

Lemma reachable_Inv2 evs w : run_ evs mounted = Some w → Inv2 w.
Proof. apply run_Inv2; [apply mounted_Inv|apply mounted_Inv2]. Qed.

(** ** What the callbacks keep and never do *)

Lemma handleClear_noop (w : Sys) :
  wavesurfer (ui w) = None ∨ deleteFileUrl (ui w) = None →
  handleClear w = w.
Proof.
  unfold handleClear. intros [->| ->]; [done|].
  by destruct (wavesurfer (ui w)).
Qed.

(** X1. Clearing twice is clearing once: the second [handleClear] finds no
    upload handle and changes nothing, so the deletion of an uploaded file
    is asked at most once per handle. *)
Theorem handleClear_idempotent (w : Sys) :
  handleClear (handleClear w) = handleClear w.
Proof.
  destruct (wavesurfer (ui w)) as [ws|] eqn:Ews.
  - destruct (deleteFileUrl (ui w)) as [url|] eqn:Eurl.
    + apply handleClear_noop. right.
      unfold handleClear. rewrite Ews, Eurl.
      by destruct (recordingUrl (ui w)).
    + by rewrite !(handleClear_noop w (or_intror Eurl)).
  - by rewrite !(handleClear_noop w (or_introl Ews)).
Qed.

(** X2. The recording URL a mounted component holds is never a revoked
    one: it is live in the object-URL store, and a backend exists. *)
Theorem recording_url_is_live evs (w : Sys) url :
  run_ evs mounted = Some w →
  recordingUrl (ui w) = Some url →
  url ∈ objectUrls (env w) ∧ is_Some (wavesurfer (ui w)).
Proof.
  intros Hrun Hurl.
  destruct (reachable_Inv _ _ Hrun) as [_ _ _ _ Hr _ _].
  destruct Hr as [_ Hkept]; [by rewrite Hurl|].
  unfold retained in Hkept. rewrite Hurl in Hkept.
  destruct (wavesurfer (ui w)) as [ws|]; [|done].
  split; [by apply bool_decide_eq_true in Hkept|eauto].
Qed.

(** X3. As long as the backend has not been created, nothing can be done
    with the component: starting, stopping, playing and clearing are all
    no-ops, and there is no recording, upload handle or upload in flight. *)
Theorem uninitialised_backend_is_inert evs (w : Sys) :
  run_ evs mounted = Some w →
  wavesurfer (ui w) = None →
  startRecording theme w = w ∧ stopRecording w = w
  ∧ onClickPlayPause w = w ∧ handleClear w = w
  ∧ recordingUrl (ui w) = None ∧ deleteFileUrl (ui w) = None
  ∧ uploadsInFlight (env w) = [].
Proof.
  intros Hrun Hws.
  destruct (reachable_Inv _ _ Hrun) as [Hb _ _ _ Hr Hu Hh].
  rewrite Hws in *. simpl in Hb.
  destruct (recordPlugin (ui w)) as [rp|] eqn:Erp; [done|].
  split_and!.
  - unfold startRecording, startRecording_returns. by rewrite Erp.
  - unfold stopRecording. by rewrite Erp.
  - unfold onClickPlayPause. by rewrite Hws.
  - unfold handleClear. by rewrite Hws.
  - destruct (recordingUrl (ui w)); [|done].
    destruct Hr as [_ Hkept]; [done|]. unfold retained in Hkept.
    by rewrite Hws in Hkept.
  - destruct (deleteFileUrl (ui w)); [|done]. by destruct Hh as [? _].
  - destruct (uploadsInFlight (env w)); [done|]. by destruct Hu.
Qed.

(** X4. After the permission has been denied the component shows the
    no-permission notice and nothing else for the rest of the session: the
    action button is disabled, neither the placeholder nor the clear action
    is rendered, no device is known, and nothing was ever recorded, uploaded
    or deleted. *)
Theorem denied_session_view evs1 evs2 (w : Sys) :
  run_ (evs1 ++ EvPermissionDenied :: evs2) mounted = Some w →
  actionButtonDisabled (render element_disabled (ui w)) = true
  ∧ showNoMicPermissions (render element_disabled (ui w)) = true
  ∧ showPlaceholder (render element_disabled (ui w)) = false
  ∧ clearRecordingButton (render element_disabled (ui w)) = false
  ∧ availableAudioDevices (ui w) = []
  ∧ recordingUrl (ui w) = None
  ∧ uploadsInFlight (env w) = [] ∧ deletedFiles (env w) = []
  ∧ objectUrls (env w) = ∅.
Proof.
  intros Hrun.
  pose proof (reachable_Inv _ _ Hrun) as [_ Hd _ _ Hr _ _].
  pose proof (reachable_Inv2 _ _ Hrun) as [_ _ _ Hc Hs].
  rewrite run_app in Hrun.
  destruct (run_ evs1 mounted) as [w1|]; [simpl in Hrun|done].
  destruct (guard _ _) as [w2|] eqn:Hg in Hrun; [|done].
  apply guard_Some in Hg as [_ ->].
  apply run_Denied in Hrun; [|done].
  assert (micAccess (env w) ≠ Enumerated) as Hne by (by rewrite Hrun).
  destruct (Hs Hne) as (Hdel & Hup & Hdeleted & Hurls).
  assert (hasNoMicPermissions (ui w) = true) as Hno
    by (rewrite Hd; by apply bool_decide_eq_true).
  assert (recordingUrl (ui w) = None) as Hrec.
  { destruct (recordingUrl (ui w)); [|done].
    destruct Hr as [Hen _]; [done|]. by rewrite Hen in Hne. }
  simpl. rewrite Hno, Hdel, Hrec. simpl.
  split_and!; try done; auto using orb_true_r, andb_false_r.
Qed.

(** X7. The plugin is only ever asked to record from the active device,
    and that device id is not empty; while the plugin is recording an
    active device is selected. *)
Theorem plugin_records_from_active_device evs (w : Sys) rp d :
  run_ evs mounted = Some w →
  recordPlugin (ui w) = Some rp →
  rp_request rp = Some d →
  activeAudioDeviceId (ui w) = Some d ∧ d ≠ "".
Proof.
  intros Hrun Erp Ereq.
  destruct (reachable_Inv2 _ _ Hrun) as [Hq Hbd _ _ _].
  pose proof (Hq rp d Erp Ereq) as Hact. split; [done|].
  unfold plugin_busy in Hbd. rewrite Erp, Ereq, Hact in Hbd. simpl in Hbd.
  intros ->. rewrite orb_true_r in Hbd. by specialize (Hbd eq_refl).
Qed.

(** ** Frames: what an event leaves alone *)

Ltac step_cases H :=
  simpl in H; open_step H;
  unfold startRecording, stopRecording, onClickPlayPause, handleClear,
    initializeWaveSurfer, onDevices in *; simpl in *;
  repeat match goal with
  | Hb : bool_decide _ = true |- _ => apply bool_decide_eq_true in Hb
  | Hup : onUploaded _ _ = Ok _ |- _ =>
      destruct (onUploaded_cases _ _ _ Hup) as [?|(? & ? & ?)]; clear Hup
  end; subst;
  repeat match goal with
  | |- context [match ?x with _ => _ end] => destruct x eqn:?
  | |- context [if ?x then _ else _] => destruct x eqn:?
  end; simpl in *.

(** X9. Once playback has been toggled the time code on display is the
    playback time, and it stays so through every event but a clear:
    starting or finishing another take does not switch the display back to
    the recording time. *)
Theorem playback_time_shown_until_clear e (w w' : Sys) :
  shouldUpdatePlaybackTime (ui w) = true →
  e ≠ EvClear →
  step_ e w = Some w' →
  shouldUpdatePlaybackTime (ui w') = true
  ∧ timeCode (render element_disabled (ui w')) = progressTime (ui w').
Proof.
  intros Hshow Hne Hstep.
  assert (shouldUpdatePlaybackTime (ui w') = true) as Hkeep.
  { destruct e; try done; step_cases Hstep; done. }
  split; [done|]. simpl. by rewrite Hkeep.
Qed.

(** X12. Only a clear revokes an object URL, and only the one of the
    current recording: any other live URL stays live through every event. *)
Theorem only_clear_revokes e (w w' : Sys) url :
  step_ e w = Some w' →
  url ∈ objectUrls (env w) →
  url ∈ objectUrls (env w')
  ∨ (e = EvClear ∧ recordingUrl (ui w) = Some url).
Proof.
  intros Hstep Hin.
  destruct e; step_cases Hstep; try (by left); try (left; set_solver).
  match goal with
  | |- _ ∈ _ ∖ {[ ?rec ]} ∨ _ =>
      destruct (decide (url = rec)) as [->|]; [by right|left; set_solver]
  end.
Qed.

(** The device list arrives once: afterwards the catalog and the active
    device stay what they are. *)
Lemma step_Enumerated e (w w' : Sys) :
  micAccess (env w) = Enumerated → step_ e w = Some w' →
  micAccess (env w') = Enumerated
  ∧ availableAudioDevices (ui w') = availableAudioDevices (ui w)
  ∧ activeAudioDeviceId (ui w') = activeAudioDeviceId (ui w).
Proof.
  intros Hen Hstep.
  destruct e; step_cases Hstep; try congruence; done.
Qed.

Lemma run_Enumerated evs (w w' : Sys) :
  micAccess (env w) = Enumerated → run_ evs w = Some w' →
  micAccess (env w') = Enumerated
  ∧ availableAudioDevices (ui w') = availableAudioDevices (ui w)
  ∧ activeAudioDeviceId (ui w') = activeAudioDeviceId (ui w).
Proof.
  revert w. induction evs as [|e evs IH]; simpl; intros w Hen Hrun.
  - by injection Hrun as <-.
  - destruct (step_ e w) as [w1|] eqn:E; [|done].
    destruct (step_Enumerated _ _ _ Hen E) as (Hen1 & Hav & Hact).
    destruct (IH _ Hen1 Hrun) as (? & ? & ?).
    split_and!; congruence.
Qed.

(** X11. The device catalog is fixed for the session once it has
    arrived: in every later state the stored list is the one that was
    returned, and the active device is its first entry (none for an empty
    list). *)
Theorem device_catalog_is_fixed evs1 evs2 devices (w : Sys) :
  run_ (evs1 ++ EvDevices devices :: evs2) mounted = Some w →
  availableAudioDevices (ui w) = devices
  ∧ activeAudioDeviceId (ui w) = deviceId <$> head devices.
Proof.
  intros Hrun. rewrite run_app in Hrun.
  destruct (run_ evs1 mounted) as [w1|] eqn:Hrun1; [simpl in Hrun|done].
  destruct (step_ (EvDevices devices) w1) as [w2|] eqn:Hstep;
    [|by simpl in Hstep; rewrite Hstep in Hrun].
  simpl in Hstep. rewrite Hstep in Hrun.
  assert (micAccess (env w2) = Enumerated) as Hen.
  { apply guard_Some in Hstep as [_ ->].
    unfold onDevices. destruct devices; simpl; done. }
  assert (availableAudioDevices (ui w2) = devices
          ∧ activeAudioDeviceId (ui w2) = deviceId <$> head devices)
    as [Hav Hact].
  { destruct (reachable_Inv _ _ Hrun1) as [_ _ Hv _ _ _ _].
    apply guard_Some in Hstep as [Hg ->].
    apply bool_decide_eq_true in Hg.
    unfold onDevices. destruct devices as [|d ds]; simpl; [|done].
    split; [done|].
    destruct (activeAudioDeviceId (ui w1)); [|done].
    rewrite Hv in Hg; done. }
  destruct (run_Enumerated _ _ _ Hen Hrun) as (_ & Hav' & Hact').
  split; congruence.
Qed.

(** X10. When the device list is empty, or its first device has an empty
    id, no recording can be started for the rest of the session:
    [startRecording] is a no-op and the plugin is never recording. *)
Theorem no_usable_device_never_records evs1 evs2 devices (w : Sys) :
  truthy (deviceId <$> head devices) = false →
  run_ (evs1 ++ EvDevices devices :: evs2) mounted = Some w →
  startRecording theme w = w ∧ isRecording (ui w) = false.
Proof.
  intros Hfalsy Hrun.
  destruct (device_catalog_is_fixed _ _ _ _ Hrun) as [_ Hact].
  destruct (reachable_Inv2 _ _ Hrun) as [_ Hbd _ _ _].
  rewrite Hact, Hfalsy in Hbd.
  split.
  - unfold startRecording, startRecording_returns.
    rewrite Hact, Hfalsy. simpl. by rewrite orb_true_r.
  - unfold plugin_busy in Hbd. unfold isRecording.
    destruct (recordPlugin (ui w)) as [rp|]; [|done].
    destruct (rp_recording rp); [|done]. by specialize (Hbd eq_refl).
Qed.

(** ** Upload handles *)

Lemma onUploaded_offered res (w w' : Sys) :
  onUploaded res w = Ok w' →
  env w' = env w
  ∧ (deleteFileUrl (ui w') = deleteFileUrl (ui w)
     ∨ ∃ d, offered_by (EvUploadResolved res) = [d]
            ∧ deleteFileUrl (ui w') = Some d).
Proof.
  unfold onUploaded, offered_by.
  destruct (successfulUploads res !! 0%nat) as [u|]; simpl;
    [|intros [= <-]; auto].
  destruct (deleteUrl (fileUrl u)) as [url|] eqn:E; simpl;
    [|intros [= <-]; auto].
  destruct (negb (String.eqb url "")); intros [= <-]; simpl; eauto.
Qed.

Lemma offered_snoc evs e : offered (evs ++ [e]) = (offered evs ++ offered_by e)%list.
Proof.
  unfold offered. rewrite map_app, concat_app. simpl. by rewrite app_nil_r.
Qed.

Lemma step_handles_offered evs e (w w' : Sys) :
  handles_offered evs w → step_ e w = Some w' →
  handles_offered (evs ++ [e]) w'.
Proof.
  intros [Hheld Hdeleted] Hstep. unfold handles_offered.
  rewrite offered_snoc.
  assert (∀ d, d ∈ offered evs → d ∈ (offered evs ++ offered_by e)%list)
    as Hweak by (intros d ?; apply elem_of_app; by left).
  destruct e.
  all: try (step_cases Hstep; split; intros d Hd; apply Hweak;
            first [by apply Hheld|by apply Hdeleted]).
  - (* EvUploadResolved *)
    simpl in Hstep.
    destruct (uploadsInFlight (env w)) as [|f fs]; [done|].
    destruct (onUploaded res (on_env uploadSettled w)) as [w1|] eqn:Hup;
      injection Hstep as <-.
    + destruct (onUploaded_offered _ _ _ Hup) as [Henv [Hsame|(d0 & Hoff & Hnew)]].
      * split; intros d Hd; apply Hweak.
        -- apply Hheld. simpl in Hsame. congruence.
        -- apply Hdeleted. by rewrite Henv in Hd.
      * split; intros d Hd.
        -- rewrite Hnew in Hd. injection Hd as <-. rewrite Hoff.
           apply elem_of_app. right. by apply list_elem_of_singleton.
        -- apply Hweak, Hdeleted. by rewrite Henv in Hd.
    + split; intros d Hd; apply Hweak;
        first [by apply Hheld|by apply Hdeleted].
  - (* EvClear *)
    simpl in Hstep. apply guard_Some in Hstep as [_ ->].
    unfold handleClear.
    destruct (wavesurfer (ui w)) as [ws|];
      [|split; intros d Hd; apply Hweak; first [by apply Hheld|by apply Hdeleted|congruence]].
    destruct (deleteFileUrl (ui w)) as [url|] eqn:Eurl;
      [|split; intros d Hd; apply Hweak; first [by apply Hheld|by apply Hdeleted|congruence]].
    split; intros d Hd; apply Hweak.
    + by destruct (recordingUrl (ui w)).
    + assert (d ∈ (deletedFiles (env w) ++ [url])%list) as Hd'
        by (by destruct (recordingUrl (ui w))).
      apply elem_of_app in Hd' as [?|Hd']; [by apply Hdeleted|].
      apply list_elem_of_singleton in Hd' as ->. by apply Hheld.
Qed.

Lemma run_handles_offered evs pre (w w' : Sys) :
  handles_offered pre w → run_ evs w = Some w' →
  handles_offered (pre ++ evs) w'.
Proof.
  revert pre w. induction evs as [|e evs IH]; simpl; intros pre w Hw Hrun.
  - injection Hrun as <-. by rewrite app_nil_r.
  - destruct (step_ e w) as [w1|] eqn:E; [|done].
    replace (pre ++ e :: evs)%list with ((pre ++ [e]) ++ evs)%list
      by (by rewrite <- app_assoc).
    eapply IH; [|done]. by eapply step_handles_offered.
Qed.

(** X5. The component never invents a deletion URL: every URL it asks
    the upload client to delete, and the handle it holds, is the deletion
    URL of the first entry of some upload result received earlier in the
    session. *)
Theorem deleted_urls_were_offered evs (w : Sys) d :
  run_ evs mounted = Some w →
  d ∈ deletedFiles (env w) ∨ deleteFileUrl (ui w) = Some d →
  d ∈ offered evs.
Proof.
  intros Hrun Hd.
  assert (handles_offered [] mounted) as Hinit.
  { split; simpl; [done|]. intros ? ?%elem_of_nil. done. }
  destruct (run_handles_offered _ _ _ _ Hinit Hrun) as [Hheld Hdeleted].
  destruct Hd; auto.
Qed.

(** X6. When an upload resolves with a deletion URL, the clear action is
    rendered, and clearing then asks the upload client to delete exactly
    that URL and drops the handle. *)
Theorem uploaded_then_cleared evs (w w1 : Sys) res u d :
  run_ evs mounted = Some w →
  head (successfulUploads res) = Some u →
  deleteUrl (fileUrl u) = Some d → d ≠ "" →
  step_ (EvUploadResolved res) w = Some w1 →
  clearRecordingButton (render element_disabled (ui w1)) = true
  ∧ ∃ w2, step_ EvClear w1 = Some w2
          ∧ deletedFiles (env w2) = (deletedFiles (env w) ++ [d])%list
          ∧ deleteFileUrl (ui w2) = None
          ∧ clearRecordingButton (render element_disabled (ui w2)) = false.
Proof.
  intros Hrun Hhd Hdel Hne Hstep.
  destruct (reachable_Inv _ _ Hrun) as [_ _ _ _ _ Hu _].
  simpl in Hstep.
  destruct (uploadsInFlight (env w)) as [|f fs] eqn:Eup; [done|].
  destruct (wavesurfer (ui w)) as [ws|] eqn:Ews; [|by destruct Hu].
  unfold onUploaded in Hstep.
  destruct (successfulUploads res) as [|u' us]; [done|].
  injection Hhd as ->. simpl in Hstep. rewrite Hdel in Hstep. simpl in Hstep.
  assert (negb (String.eqb d "") = true) as Htr.
  { apply negb_true_iff, String.eqb_neq. done. }
  rewrite Htr in Hstep. injection Hstep as <-.
  simpl. rewrite Htr. split; [done|].
  unfold handleClear. simpl. rewrite Ews. simpl.
  eexists. split; [done|].
  by destruct (recordingUrl (ui w)).
Qed.

(** ** What is uploaded *)







End Properties.

(** ** The model at concrete sessions *)

Lemma on_record_end_revokes_nothing blob (w : Sys) :
  objectUrls (env w) ⊆ objectUrls (env (on_record_end blob w)).
Proof. simpl. set_solver. Qed.

(** C1 fails on the code.  The [record-end] handler creates an object URL
    and never revokes the one it replaces: after a second take without a
    clear in between, the URL of the first take is still live next to the
    new one. *)
Theorem second_take_keeps_first_object_url :
  ∃ w, session (first_take ++ second_take) mounted = Some w
       ∧ status w = Recorded
       ∧ recordingUrl (ui w) = Some "blob:1"
       ∧ "blob:0" ∈ objectUrls (env w)
       ∧ size (objectUrls (env w)) = 2.
Proof.
  eexists. split; [vm_compute; reflexivity|].
  split_and!;
    first [ vm_compute; reflexivity
          | apply (bool_decide_unpack _); vm_compute; exact I ].
Qed.

(** C8 fails on the code.  The handle of the first take is still held while
    the second take is uploaded: the clear action is offered, and taken, with
    an upload in flight. *)
Theorem clear_offered_while_second_upload_in_flight :
  ∃ w w',
    session (first_take ++ [first_upload] ++ second_take) mounted = Some w
    ∧ length (uploadsInFlight (env w)) = 1
    ∧ clearRecordingButton (render false (ui w)) = true
    ∧ step lightTheme false mmss EvClear w = Some w'
    ∧ deletedFiles (env w') = ["/_stcore/upload_file/s1/f1"]
    ∧ length (uploadsInFlight (env w')) = 1.
Proof.
  do 2 eexists. split; [vm_compute; reflexivity|].
  split_and!; vm_compute; reflexivity.
Qed.

(** C7 fails on the code.  The second take is recorded while the handle of
    the first upload is still held, and its upload fails (the promise
    rejects, or resolves without a successful upload): the status stays
    Recorded and no handle is created, but the clear action is rendered,
    on the handle of the first take. *)
Theorem clear_offered_after_second_upload_failed :
  ∃ w w',
    session (first_take ++ [first_upload] ++ second_take) mounted = Some w
    ∧ step lightTheme false mmss EvUploadRejected w = Some w'
    ∧ step lightTheme false mmss
        (EvUploadResolved {| successfulUploads := [] |}) w = Some w'
    ∧ status w' = Recorded
    ∧ uploadsInFlight (env w') = []
    ∧ recordingUrl (ui w') = Some "blob:1"
    ∧ deleteFileUrl (ui w') = Some "/_stcore/upload_file/s1/f1"
    ∧ clearRecordingButton (render false (ui w')) = true.
Proof.
  do 2 eexists. split; [vm_compute; reflexivity|].
  split; [vm_compute; reflexivity|].
  split_and!; vm_compute; reflexivity.
Qed.

(** C6 as stated fails: from a Recorded session, which is not Ready,
    [startRecording] is not a no-op; it starts the next take. *)
Lemma startRecording_from_Recorded :
  ¬ (∀ evs w,
       session evs mounted = Some w →
       ¬ (status w = Ready ∧ truthy (activeAudioDeviceId (ui w)) = true) →
       startRecording lightTheme w = w).
Proof.
  intros Hclaim.
  specialize (Hclaim first_take recorded_once).
  assert (startRecording lightTheme recorded_once = recorded_once) as Heq.
  { apply Hclaim; [vm_compute; reflexivity|].
    intros [Hst _]. vm_compute in Hst. discriminate Hst. }
  apply (f_equal (fun w => rp_request <$> recordPlugin (ui w))) in Heq.
  vm_compute in Heq. discriminate Heq.
Qed.

(** ** The theorems at concrete sessions *)

(** After the first take, with its upload still in flight, no handle is
    held and clearing does nothing. *)
Lemma handleClear_without_upload_handle_witness :
  deleteFileUrl (ui recorded_once) = None
  ∧ handleClear recorded_once = recorded_once
  ∧ step lightTheme false mmss EvClear recorded_once = None.
Proof.
  assert (deleteFileUrl (ui recorded_once) = None) as Hnone
    by (vm_compute; reflexivity).
  destruct (handleClear_without_upload_handle lightTheme false mmss
              recorded_once Hnone) as (Hnoop & _ & _ & Hstep).
  exact (conj Hnone (conj Hnoop Hstep)).
Defined.

(** A handle without a backend: clearing does nothing. *)
Lemma handleClear_requires_backend_and_handle_witness :
  wavesurfer (ui unbacked) = None
  ∧ is_Some (deleteFileUrl (ui unbacked))
  ∧ handleClear unbacked = unbacked.
Proof.
  assert (wavesurfer (ui unbacked) = None) as Hnone by reflexivity.
  split; [exact Hnone|]. split; [by eexists|].
  exact (proj1 (handleClear_requires_backend_and_handle unbacked) Hnone).
Defined.

(** One take, uploaded, then cleared. *)
Lemma handleClear_resets_recorded_session_witness :
  session (first_take ++ [first_upload]) mounted = Some uploaded_once
  ∧ status uploaded_once = Recorded
  ∧ deleteFileUrl (ui uploaded_once) = Some "/_stcore/upload_file/s1/f1"
  ∧ status (handleClear uploaded_once) = Ready
  ∧ progressTime (ui (handleClear uploaded_once)) = "00:00"
  ∧ recordingTime (ui (handleClear uploaded_once)) = "00:00"
  ∧ deleteFileUrl (ui (handleClear uploaded_once)) = None.
Proof.
  assert (session (first_take ++ [first_upload]) mounted = Some uploaded_once)
    as Hrun by (vm_compute; reflexivity).
  assert (status uploaded_once = Recorded) as Hst by (vm_compute; reflexivity).
  assert (deleteFileUrl (ui uploaded_once) = Some "/_stcore/upload_file/s1/f1")
    as Hurl by (vm_compute; reflexivity).
  destruct (handleClear_resets_recorded_session lightTheme false mmss
              _ _ _ Hrun Hst Hurl) as (H1 & H2 & H3 & H4 & _).
  exact (conj Hrun (conj Hst (conj Hurl (conj H1 (conj H2 (conj H3 H4)))))).
Defined.

(** Two microphones are found: the first is the active one. *)
Lemma devices_select_first_witness :
  session [EvInitialize; EvPermissionGranted] mounted = Some granted
  ∧ step lightTheme false mmss (EvDevices microphones) granted = Some enumerated
  ∧ availableAudioDevices (ui enumerated) = microphones
  ∧ activeAudioDeviceId (ui enumerated) = Some "default".
Proof.
  assert (session [EvInitialize; EvPermissionGranted] mounted = Some granted)
    as Hrun by (vm_compute; reflexivity).
  assert (step lightTheme false mmss (EvDevices microphones) granted
          = Some enumerated) as Hstep by (vm_compute; reflexivity).
  destruct (devices_select_first lightTheme false mmss _ _ _ _ Hrun Hstep)
    as [Hall Hfirst].
  exact (conj Hrun (conj Hstep (conj Hall Hfirst))).
Defined.

(** The microphone is refused and the record button is clicked twice. *)
Lemma denied_session_never_records_witness :
  session refused mounted = Some refused_session
  ∧ status refused_session = NoPermission
  ∧ startRecording lightTheme refused_session = refused_session
  ∧ isRecording (ui refused_session) = false.
Proof.
  assert (session refused mounted = Some refused_session) as Hrun
    by (vm_compute; reflexivity).
  exact (conj Hrun
           (denied_session_never_records lightTheme false mmss
              [EvInitialize] [EvStartRecording; EvPlayPause; EvStartRecording]
              refused_session Hrun)).
Defined.

(** A second take is started from the Recorded session. *)
Lemma startRecording_by_guard_witness :
  session first_take mounted = Some recorded_once
  ∧ status recorded_once = Recorded
  ∧ if startRecording_returns (ui recorded_once)
    then startRecording lightTheme recorded_once = recorded_once
    else ∃ dev w',
      activeAudioDeviceId (ui recorded_once) = Some dev
      ∧ rp_request <$> recordPlugin (ui (startRecording lightTheme recorded_once))
        = Some (Some dev)
      ∧ step lightTheme false mmss EvRecordingStarted
          (startRecording lightTheme recorded_once) = Some w'
      ∧ status w' = Recording.
Proof.
  assert (session first_take mounted = Some recorded_once) as Hrun
    by (vm_compute; reflexivity).
  split; [exact Hrun|]. split; [vm_compute; reflexivity|].
  exact (startRecording_by_guard lightTheme false mmss first_take
           recorded_once Hrun).
Defined.

(** The sink reports no successful upload. *)
Lemma onUploaded_without_delete_url_witness :
  onUploaded {| successfulUploads := [] |} recorded_once = Ok recorded_once.
Proof.
  apply onUploaded_without_delete_url. left. reflexivity.
Defined.


(** ** More theorems at concrete sessions *)

(** The URL of the first take is live after the take. *)
Lemma recording_url_is_live_witness :
  session first_take mounted = Some recorded_once
  ∧ recordingUrl (ui recorded_once) = Some "blob:0"
  ∧ "blob:0" ∈ objectUrls (env recorded_once).
Proof.
  assert (session first_take mounted = Some recorded_once) as Hrun
    by (vm_compute; reflexivity).
  assert (recordingUrl (ui recorded_once) = Some "blob:0") as Hurl
    by (vm_compute; reflexivity).
  exact (conj Hrun (conj Hurl
           (proj1 (recording_url_is_live lightTheme false mmss
                     first_take recorded_once "blob:0" Hrun Hurl)))).
Defined.

(** A device is selected but the backend is missing: the record button
    does nothing. *)
Lemma uninitialised_backend_is_inert_witness :
  session [EvPermissionGranted; EvDevices microphones] mounted = Some no_backend
  ∧ wavesurfer (ui no_backend) = None
  ∧ activeAudioDeviceId (ui no_backend) = Some "default"
  ∧ startRecording lightTheme no_backend = no_backend.
Proof.
  assert (session [EvPermissionGranted; EvDevices microphones] mounted
          = Some no_backend) as Hrun by (vm_compute; reflexivity).
  assert (wavesurfer (ui no_backend) = None) as Hws
    by (vm_compute; reflexivity).
  split; [exact Hrun|]. split; [exact Hws|].
  split; [vm_compute; reflexivity|].
  exact (proj1 (uninitialised_backend_is_inert lightTheme false mmss
                  _ no_backend Hrun Hws)).
Defined.

(** The refused session shows the notice and a disabled button. *)
Lemma denied_session_view_witness :
  session refused mounted = Some refused_session
  ∧ actionButtonDisabled (render false (ui refused_session)) = true
  ∧ showNoMicPermissions (render false (ui refused_session)) = true
  ∧ showPlaceholder (render false (ui refused_session)) = false.
Proof.
  assert (session refused mounted = Some refused_session) as Hrun
    by (vm_compute; reflexivity).
  destruct (denied_session_view lightTheme false mmss
              [EvInitialize] [EvStartRecording; EvPlayPause; EvStartRecording]
              refused_session Hrun) as (H1 & H2 & H3 & _).
  exact (conj Hrun (conj H1 (conj H2 H3))).
Defined.

(** The URL deleted by the clear is the one the first upload returned. *)
Lemma deleted_urls_were_offered_witness :
  session (first_take ++ [first_upload; EvClear]) mounted = Some cleared_once
  ∧ deletedFiles (env cleared_once) = ["/_stcore/upload_file/s1/f1"]
  ∧ "/_stcore/upload_file/s1/f1"
    ∈ offered (first_take ++ [first_upload; EvClear]).
Proof.
  assert (session (first_take ++ [first_upload; EvClear]) mounted
          = Some cleared_once) as Hrun by (vm_compute; reflexivity).
  assert (deletedFiles (env cleared_once) = ["/_stcore/upload_file/s1/f1"])
    as Hdel by (vm_compute; reflexivity).
  split; [exact Hrun|]. split; [exact Hdel|].
  apply (deleted_urls_were_offered lightTheme false mmss _ cleared_once).
  - exact Hrun.
  - left. rewrite Hdel. apply list_elem_of_here.
Defined.

(** The first upload resolves and the take is cleared. *)
Lemma uploaded_then_cleared_witness :
  session first_take mounted = Some recorded_once
  ∧ step lightTheme false mmss first_upload recorded_once = Some uploaded_once
  ∧ clearRecordingButton (render false (ui uploaded_once)) = true
  ∧ ∃ w2, step lightTheme false mmss EvClear uploaded_once = Some w2
          ∧ deletedFiles (env w2) = ["/_stcore/upload_file/s1/f1"].
Proof.
  assert (session first_take mounted = Some recorded_once) as Hrun
    by (vm_compute; reflexivity).
  assert (step lightTheme false mmss first_upload recorded_once
          = Some uploaded_once) as Hstep by (vm_compute; reflexivity).
  destruct (uploaded_then_cleared lightTheme false mmss first_take
              recorded_once uploaded_once
              (uploaded_as take1 "f1" (Some "/_stcore/upload_file/s1/f1"))
              _ "/_stcore/upload_file/s1/f1"
              Hrun eq_refl eq_refl ltac:(discriminate) Hstep)
    as (Hbtn & w2 & Hclear & Hdel & _).
  split; [exact Hrun|]. split; [exact Hstep|]. split; [exact Hbtn|].
  exists w2. split; [exact Hclear|]. exact Hdel.
Defined.

(** The pending request names the active microphone. *)
Lemma plugin_records_from_active_device_witness :
  (rp_request <$> recordPlugin (ui start_requested)) = Some (Some "default")
  ∧ activeAudioDeviceId (ui start_requested) = Some "default".
Proof.
  split; [vm_compute; reflexivity|].
  refine (proj1 (plugin_records_from_active_device lightTheme false mmss
                   [EvInitialize; EvPermissionGranted; EvDevices microphones;
                    EvStartRecording]
                   start_requested
                   {| rp_recording := false; rp_request := Some "default";
                      rp_stopping := false |}
                   "default" _ _ eq_refl));
    vm_compute; reflexivity.
Defined.


(** After playing the first take, starting a second one keeps the
    playback time on display. *)
Lemma playback_time_shown_until_clear_witness :
  shouldUpdatePlaybackTime (ui played) = true
  ∧ step lightTheme false mmss EvStartRecording played = Some played_then_started
  ∧ timeCode (render false (ui played_then_started))
    = progressTime (ui played_then_started).
Proof.
  assert (shouldUpdatePlaybackTime (ui played) = true) as Hshow
    by (vm_compute; reflexivity).
  assert (step lightTheme false mmss EvStartRecording played
          = Some played_then_started) as Hstep by (vm_compute; reflexivity).
  split; [exact Hshow|]. split; [exact Hstep|].
  exact (proj2 (playback_time_shown_until_clear lightTheme false mmss
                  EvStartRecording played played_then_started
                  Hshow ltac:(discriminate) Hstep)).
Defined.

(** A device without an id: the record button does nothing. *)
Lemma no_usable_device_never_records_witness :
  startRecording lightTheme anonymous_session = anonymous_session
  ∧ isRecording (ui anonymous_session) = false.
Proof.
  apply (no_usable_device_never_records lightTheme false mmss
           [EvInitialize; EvPermissionGranted] [EvStartRecording]
           anonymous_devices anonymous_session);
    vm_compute; reflexivity.
Defined.

(** The two microphones are still the catalog after the first take. *)
Lemma device_catalog_is_fixed_witness :
  availableAudioDevices (ui recorded_once) = microphones
  ∧ activeAudioDeviceId (ui recorded_once) = Some "default".
Proof.
  apply (device_catalog_is_fixed lightTheme false mmss
           [EvInitialize; EvPermissionGranted]
           [EvStartRecording; EvRecordingStarted; EvRecordProgress 3500;
            EvStopRecording; EvRecordEnd take1]
           microphones recorded_once).
  vm_compute; reflexivity.
Defined.

(** The URL of the first take outlives the clear of the second. *)
Lemma only_clear_revokes_witness :
  step lightTheme false mmss EvClear two_takes = Some two_takes_cleared
  ∧ recordingUrl (ui two_takes) = Some "blob:1"
  ∧ "blob:0" ∈ objectUrls (env two_takes)
  ∧ "blob:0" ∈ objectUrls (env two_takes_cleared).
Proof.
  assert (step lightTheme false mmss EvClear two_takes
          = Some two_takes_cleared) as Hstep by (vm_compute; reflexivity).
  assert ("blob:0" ∈ objectUrls (env two_takes)) as Hin
    by (apply (bool_decide_unpack _); vm_compute; exact I).
  assert (recordingUrl (ui two_takes) = Some "blob:1") as Hrec
    by (vm_compute; reflexivity).
  split; [exact Hstep|]. split; [exact Hrec|]. split; [exact Hin|].
  destruct (only_clear_revokes lightTheme false mmss EvClear two_takes
              two_takes_cleared "blob:0" Hstep Hin) as [Hkept|[_ Hcur]].
  - exact Hkept.
  - rewrite Hrec in Hcur. discriminate Hcur.
Defined.

(** * ImageList *)

Module ImageListProperties.
Import ImageList.

Section Component.

Variable number : Type.
Variable fromInt : Z -> number.
Variable numberTruthy : number -> bool.
Variable buildMediaURL : string -> string.

Abbreviation ImageList_ := (ImageList number fromInt numberTruthy buildMediaURL).

(** X13. [ImageList] throws exactly when the proto width is neither one of
    the three special values -1, -2, -3 nor positive, that is for 0 and for
    every width below -3, whether or not the width would have been used;
    the message names the width. *)
Theorem ImageList_throws_iff (props : ImageListProps number) msg :
  ImageList_ props = Thrown msg ↔
  ((width (element props) = 0 ∨ width (element props) < -3)%Z
   ∧ msg = "Invalid image width: " +:+ pretty (width (element props))).
Proof.
  unfold ImageList, containerWidth, OriginalWidth, AutoWidth, ColumnWidth.
  destruct (Z.eqb_spec (width (element props)) (-1)); simpl;
    [split; [done|lia]|].
  destruct (Z.eqb_spec (width (element props)) (-3)); simpl;
    [split; [done|lia]|].
  destruct (Z.eqb_spec (width (element props)) (-2)); simpl;
    [split; [done|lia]|].
  destruct (Z.ltb_spec 0 (width (element props))); simpl;
    [split; [done|lia]|].
  split.
  - intros [= <-]. split; [lia|done].
  - by intros [_ ->].
Qed.

(** X14. When it returns, [ImageList] renders one container per image, in
    order: the one at index [i] has key [i], the index as its alternative
    text, the media URL of that image as its source, and a caption exactly
    when the caption of the image is not empty. *)
Theorem ImageList_one_container_per_image (props : ImageListProps number) r :
  ImageList_ props = Returned r →
  length (containers r) = length (imgs (element props))
  ∧ ∀ i image, imgs (element props) !! i = Some image →
      ∃ c, containers r !! i = Some c
           ∧ key c = i ∧ alt c = pretty i
           ∧ src c = buildMediaURL (url image)
           ∧ (captionText c = None ↔ caption image = "").
Proof.
  unfold ImageList.
  destruct (containerWidth _ _ _) as [cw|]; [|done].
  intros [= <-]. simpl. split; [by rewrite length_imap|].
  intros i image Hi. eexists. split.
  - rewrite list_lookup_imap, Hi. done.
  - simpl. split_and!; try done.
    destruct (String.eqb_spec (caption image) ""); split; done.
Qed.

(** X15. The style of the images.  Shown full screen with a height, an
    image is bounded by that height and gets no width at all, whatever the
    proto says.  Otherwise its width is the column width for -2, the proto
    width when positive and none for -1 and -3, and only -3 caps it at
    100%. *)
Theorem ImageList_image_style (props : ImageListProps number) r c :
  ImageList_ props = Returned r →
  c ∈ containers r →
  if fullScreenHeight number numberTruthy (height props) (isFullScreen props)
  then maxHeight (img_style c) = height props
       ∧ objectFit (img_style c) = Some "contain"
       ∧ style_width (img_style c) = None
       ∧ maxWidth (img_style c) = None
  else maxHeight (img_style c) = None
       ∧ objectFit (img_style c) = None
       ∧ style_width (img_style c)
         = (if (width (element props) =? -2)%Z then Some (props_width props)
            else if (0 <? width (element props))%Z
                 then Some (fromInt (width (element props)))
                 else None)
       ∧ (maxWidth (img_style c) = Some "100%" ↔ width (element props) = (-3)%Z).
Proof.
  unfold ImageList. intros Hret Hin.
  destruct (containerWidth _ _ _) as [cw|] eqn:Hcw; [|done].
  injection Hret as <-. simpl in Hin.
  apply list_elem_of_lookup in Hin as [i Hi].
  rewrite list_lookup_imap in Hi.
  destruct (imgs (element props) !! i) as [image|]; [|done].
  injection Hi as <-. simpl. unfold imgStyle.
  destruct (fullScreenHeight _ _ _ _); simpl; [done|].
  unfold containerWidth, OriginalWidth, AutoWidth, ColumnWidth in *.
  destruct (Z.eqb_spec (width (element props)) (-1)) as [E1|N1];
    simpl in Hcw.
  { injection Hcw as <-. rewrite E1. simpl. split_and!; try done. }
  destruct (Z.eqb_spec (width (element props)) (-3)) as [E3|N3];
    simpl in Hcw.
  { injection Hcw as <-. rewrite E3. simpl. split_and!; try done. }
  destruct (Z.eqb_spec (width (element props)) (-2)) as [E2|N2];
    simpl in Hcw.
  { injection Hcw as <-. split_and!; try done. }
  destruct (Z.ltb_spec 0 (width (element props))); [|done].
  injection Hcw as <-. split_and!; try done.
Qed.

End Component.

End ImageListProperties.

Module ImageListWitnesses.
Import ImageList ImageListProperties.

(** The gallery renders two containers; the second has no caption. *)
Lemma ImageList_one_container_per_image_witness :
  ∃ r, run_gallery gallery_props = Returned r
       ∧ length (containers r) = 2.
Proof.
  eexists. split; [vm_compute; reflexivity|].
  refine (proj1 (ImageList_one_container_per_image Z id
                   (fun n => negb (n =? 0)%Z) (fun u => "http://host" +:+ u)
                   gallery_props _ _)).
  vm_compute; reflexivity.
Defined.

(** Full screen with a height: the explicit width of 320 is not applied. *)
Lemma ImageList_image_style_witness :
  ∃ r c, run_gallery zoomed_props = Returned r
         ∧ containers r !! 0%nat = Some c
         ∧ maxHeight (img_style c) = Some 720%Z
         ∧ style_width (img_style c) = None.
Proof.
  do 2 eexists. split; [vm_compute; reflexivity|].
  split; [vm_compute; reflexivity|].
  match goal with
  | |- maxHeight (img_style ?c) = _ ∧ _ =>
      pose proof (ImageList_image_style Z id
                    (fun n => negb (n =? 0)%Z) (fun u => "http://host" +:+ u)
                    zoomed_props _ c eq_refl) as Hstyle
  end.
  simpl in Hstyle.
  destruct Hstyle as (H1 & _ & H3 & _); [apply list_elem_of_here|].
  exact (conj H1 H3).
Defined.

End ImageListWitnesses.
